(** * Robotic telescope controller: axis motion, celestial tracking, solar interlock

    A shallow embedding of the control logic of the telescope controller
    (the [telescope], [telescope_7] and [telescope_8] variants of the
    repository) and the properties its specification states about it.

    Conventions of the embedding.
    - Python floats are exact rationals ([Q]); comparisons are the
      decidable ones on [Q]; results are compared with [==].
    - A worker thread's [run] loop is one function per loop iteration;
      the operations that other threads perform between two iterations
      are ordinary state transformers, and an execution is a list of
      operations.
    - The graphical front end (sliders, labels, dialogs, the status bar),
      the event database and the camera are outside the model: what the
      code writes to them is appended to an effect trace; only the state
      of a check box, which the code reads back, is kept.  What the
      front end sends back (a slider that moves, a check box that
      toggles, also in answer to a write) is an operation of its own.
    - The ephemeris libraries and the motor driver are inputs: each call
      either computes a value or raises. *)

From Stdlib Require Import QArith Qabs Qround ZArith List String Bool Lia Lqa.
Import ListNotations.
Open Scope Q_scope.

(** ** Python numerics *)

Module Py.

(** [x < y] as Python evaluates it on numbers. *)
Definition ltb (x y : Q) : bool := negb (Qle_bool y x).

(** [max(a, b)]: the first argument unless the second is larger. *)
Definition max (a b : Q) : Q := if ltb a b then b else a.

(** [min(a, b)]: the first argument unless the second is smaller. *)
Definition min (a b : Q) : Q := if ltb b a then b else a.

(** [x % m] on floats: the remainder has the sign of the divisor. *)
Definition mod_ (x m : Q) : Q := x - m * inject_Z (Qfloor (x / m)).

(** [int(x)]: truncation toward zero. *)
Definition int (x : Q) : Z := Z.quot (Qnum x) (Zpos (Qden x)).

End Py.

(** ** Azimuth axis, [telescope_7/modules/azimuth.py] *)

(** How the call into the motor driver made by a loop iteration ends:
    it returns, or it raises an exception with the given text. *)
Inductive Driver : Type :=
| drives
| fails (msg : string).

(** What a motor thread sends out during one loop iteration. *)
Inductive MotorOut : Type :=
| motor_stop
| motor_forward (duty : Q)
| motor_backward (duty : Q)
| position_signal (angle : Q)
| error_signal (msg : string).

Module Azimuth7.

Record AzimuthMotorThread : Type := mkThread {
  running : bool;
  current_az : Q;
  target_az : Q;
  speed : Q;
  motor : bool   (* false when [Motor(...)] raised in [__init__] *)
}.

(** [__init__] with a motor that could be opened. *)
Definition init : AzimuthMotorThread :=
  mkThread true 0 0 1 true.

Definition set_target (target : Q) (th : AzimuthMotorThread) : AzimuthMotorThread :=
  mkThread (running th) (current_az th) (Py.mod_ target 360) (speed th) (motor th).

Definition set_speed (sp : Q) (th : AzimuthMotorThread) : AzimuthMotorThread :=
  mkThread (running th) (current_az th) (target_az th)
           (Py.max 0.1 (Py.min 5 sp)) (motor th).

(** Lines 62-64 of [run]: the signed difference on the shorter side. *)
Definition shortest_diff (current target : Q) : Q :=
  let diff := target - current in
  if Py.ltb 180 (Qabs diff)
  then (if Py.ltb 0 diff then diff - 360 else diff + 360)
  else diff.

(** One iteration of the [while self.running] loop of [run]. *)
Definition run_iteration (hw : Driver) (th : AzimuthMotorThread)
  : AzimuthMotorThread * list MotorOut :=
  if negb (motor th) then (th, [])
  else if negb (running th) then (th, [])
  else
    let diff := shortest_diff (current_az th) (target_az th) in
    if Py.ltb (Qabs diff) 0.1 then (th, [motor_stop])
    else match hw with
    | fails msg =>
      (th, [error_signal ("Azimuth Movement Error: " ++ msg); motor_stop])
    | drives =>
      let speed_normalized := speed th / 5 in
      if Py.ltb 0 diff then
        let c := Py.mod_ (current_az th + speed th * 0.1) 360 in
        (mkThread (running th) c (target_az th) (speed th) (motor th),
         [motor_forward speed_normalized; position_signal c])
      else
        let c := Py.mod_ (current_az th - speed th * 0.1) 360 in
        (mkThread (running th) c (target_az th) (speed th) (motor th),
         [motor_backward speed_normalized; position_signal c])
    end.

Definition tick (th : AzimuthMotorThread) : AzimuthMotorThread :=
  fst (run_iteration drives th).

(** [AzimuthMotorThread.stop]: ends the loop and stops the motor. *)
Definition stop (th : AzimuthMotorThread) : AzimuthMotorThread * list MotorOut :=
  (mkThread false (current_az th) (target_az th) (speed th) (motor th),
   if motor th then [motor_stop] else []).

(** The widget's buttons: [move_left], [move_right], [stop_motor]. *)
Definition move_left (th : AzimuthMotorThread) := set_target (current_az th - 10) th.
Definition move_right (th : AzimuthMotorThread) := set_target (current_az th + 10) th.
Definition stop_motor (th : AzimuthMotorThread) := set_target (current_az th) th.

(** Operations on the axis, in the order they reach it. *)
Inductive Op : Type :=
| SetTarget (target : Q)
| SetSpeed (sp : Q)
| Tick (hw : Driver)
| MoveLeft
| MoveRight
| StopMotor
| Stop.

Definition exec (o : Op) (th : AzimuthMotorThread) : AzimuthMotorThread :=
  match o with
  | SetTarget t => set_target t th
  | SetSpeed sp => set_speed sp th
  | Tick hw => fst (run_iteration hw th)
  | MoveLeft => move_left th
  | MoveRight => move_right th
  | StopMotor => stop_motor th
  | Stop => fst (stop th)
  end.

Definition run_ops (ops : list Op) (th : AzimuthMotorThread) : AzimuthMotorThread :=
  fold_left (fun s o => exec o s) ops th.

(** [n] loop iterations with a working motor driver. *)
Definition ticks (n : nat) (th : AzimuthMotorThread) : AzimuthMotorThread :=
  Nat.iter n tick th.

End Azimuth7.

(** ** Altitude axis, [telescope_7/modules/altitude.py] *)

Module Altitude7.

Record AltitudeMotorThread : Type := mkThread {
  running : bool;
  current_alt : Q;
  target_alt : Q;
  speed : Q;
  motor : bool
}.

Definition init : AltitudeMotorThread :=
  mkThread true 0 0 1 true.

Definition set_target (target : Q) (th : AltitudeMotorThread) : AltitudeMotorThread :=
  mkThread (running th) (current_alt th) (Py.max 0 (Py.min 90 target))
           (speed th) (motor th).

Definition set_speed (sp : Q) (th : AltitudeMotorThread) : AltitudeMotorThread :=
  mkThread (running th) (current_alt th) (target_alt th)
           (Py.max 0.1 (Py.min 5 sp)) (motor th).

(** One iteration of the loop of [run]. *)
Definition run_iteration (hw : Driver) (th : AltitudeMotorThread)
  : AltitudeMotorThread * list MotorOut :=
  if negb (motor th) then (th, [])
  else if negb (running th) then (th, [])
  else
    let diff := target_alt th - current_alt th in
    if Py.ltb (Qabs diff) 0.1 then (th, [motor_stop])
    else match hw with
    | fails msg =>
      (th, [error_signal ("Altitude Movement Error: " ++ msg); motor_stop])
    | drives =>
      let speed_normalized := speed th / 5 in
      if Py.ltb 0 diff then
        let c := Py.max 0 (Py.min 90 (current_alt th + speed th * 0.1)) in
        (mkThread (running th) c (target_alt th) (speed th) (motor th),
         [motor_forward speed_normalized; position_signal c])
      else
        let c := Py.max 0 (Py.min 90 (current_alt th - speed th * 0.1)) in
        (mkThread (running th) c (target_alt th) (speed th) (motor th),
         [motor_backward speed_normalized; position_signal c])
    end.

Definition tick (th : AltitudeMotorThread) : AltitudeMotorThread :=
  fst (run_iteration drives th).

Definition stop (th : AltitudeMotorThread) : AltitudeMotorThread * list MotorOut :=
  (mkThread false (current_alt th) (target_alt th) (speed th) (motor th),
   if motor th then [motor_stop] else []).

(** The widget's buttons: [move_up], [move_down], [stop_motor]. *)
Definition move_up (th : AltitudeMotorThread) := set_target (current_alt th + 5) th.
Definition move_down (th : AltitudeMotorThread) := set_target (current_alt th - 5) th.
Definition stop_motor (th : AltitudeMotorThread) := set_target (current_alt th) th.

(** Operations on the axis, in the order they reach it. *)
Inductive Op : Type :=
| SetTarget (target : Q)
| SetSpeed (sp : Q)
| Tick (hw : Driver)
| MoveUp
| MoveDown
| StopMotor
| Stop.

Definition exec (o : Op) (th : AltitudeMotorThread) : AltitudeMotorThread :=
  match o with
  | SetTarget t => set_target t th
  | SetSpeed sp => set_speed sp th
  | Tick hw => fst (run_iteration hw th)
  | MoveUp => move_up th
  | MoveDown => move_down th
  | StopMotor => stop_motor th
  | Stop => fst (stop th)
  end.

Definition run_ops (ops : list Op) (th : AltitudeMotorThread) : AltitudeMotorThread :=
  fold_left (fun s o => exec o s) ops th.

End Altitude7.


(** ** Azimuth axis, [telescope_8/modules/azimuth.py] *)

Module Azimuth8.

Inductive Out : Type :=
| forward
| backward
| stop_
| position_update (p : Z)
| status_target (t : Z)
| status_speed (s : Z)
| status_moving_right (p : Q)
| status_moving_left (p : Q)
| status_reached (t : Z)
| status_stopped
| error (msg : string).

Record AzimuthThread : Type := mkThread {
  running : bool;
  target_position : Z;
  current_position : Q;
  speed : Z;
  motor : bool   (* [self.motor] is a motor object rather than [None] *)
}.

(** [__init__]; the default speed comes from the settings file. *)
Definition init (default_speed : Z) : AzimuthThread :=
  mkThread false 0 0 default_speed false.

Definition set_azimuth (target : Q) (th : AzimuthThread) : AzimuthThread * list Out :=
  let t := Z.max 0 (Z.min 360 (Py.int target)) in
  (mkThread (running th) t (current_position th) (speed th) (motor th),
   [status_target t]).

Definition set_speed (sp : Q) (th : AzimuthThread) : AzimuthThread * list Out :=
  let s := Z.max 10 (Z.min 100 (Py.int sp)) in
  (mkThread (running th) (target_position th) (current_position th) s (motor th),
   [status_speed s]).

Definition stop_motors (th : AzimuthThread) : AzimuthThread * list Out :=
  (th, (if motor th then [stop_] else []) ++ [status_stopped]).

(** How [init_motor] ends: gpiozero is missing (mock mode), the motor
    objects are created, or their creation raises (safe mode). *)
Inductive MotorInit : Type := gpio_missing | created | creation_failed.

Definition init_motor (r : MotorInit) (th : AzimuthThread) : AzimuthThread :=
  mkThread (running th) (target_position th) (current_position th) (speed th)
           match r with
           | gpio_missing => motor th
           | created => true
           | creation_failed => false
           end.

(** The direction computation of [run]. *)
Definition shortest_diff (current target : Q) : Q :=
  let diff := target - current in
  if Py.ltb 180 (Qabs diff)
  then (if Py.ltb 0 diff then diff - 360 else diff + 360)
  else diff.

(** The wrap of [run]: past 360 restarts at 0, below 0 restarts at 360. *)
Definition wrap_position (p : Q) : Q :=
  if Py.ltb 360 p then 0 else if Py.ltb p 0 then 360 else p.

(** The entry of [run], before the loop. *)
Definition start (th : AzimuthThread) : AzimuthThread :=
  mkThread true (target_position th) (current_position th) (speed th) (motor th).

(** [stop]: ends the loop and stops the motor. *)
Definition stop (th : AzimuthThread) : AzimuthThread * list Out :=
  (mkThread false (target_position th) (current_position th) (speed th) (motor th),
   snd (stop_motors th)).

(** One iteration of the [while self.running] loop of [run]. *)
Definition run_iteration (hw : Driver) (th : AzimuthThread)
  : AzimuthThread * list Out :=
  let target := inject_Z (target_position th) in
  if negb (running th) then (th, [])
  else if motor th && negb (Qeq_bool (current_position th) target) then
    match hw with
    | fails msg => (th, error ("Thread Error: " ++ msg) :: snd (stop_motors th))
    | drives =>
      let diff := shortest_diff (current_position th) target in
      let moved :=
        if Py.ltb 0 diff then current_position th + 0.2
        else current_position th - 0.2 in
      let drive :=
        if Py.ltb 0 diff then [forward; status_moving_right moved]
        else [backward; status_moving_left moved] in
      let wrapped := wrap_position moved in
      if Py.ltb (Qabs (wrapped - target)) 0.2 then
        (mkThread (running th) (target_position th) target (speed th) (motor th),
         drive ++ [position_update (Py.int wrapped); stop_;
                   position_update (Py.int target);
                   status_reached (target_position th)])
      else
        (mkThread (running th) (target_position th) wrapped (speed th) (motor th),
         drive ++ [position_update (Py.int wrapped)])
    end
  else (th, []).

Inductive Op : Type :=
| Start
| InitMotor (r : MotorInit)
| SetAzimuth (target : Q)
| SetSpeed (sp : Q)
| Tick (hw : Driver)
| StopMotors
| Stop.

Definition exec (o : Op) (th : AzimuthThread) : AzimuthThread :=
  match o with
  | Start => start th
  | InitMotor r => init_motor r th
  | SetAzimuth t => fst (set_azimuth t th)
  | SetSpeed sp => fst (set_speed sp th)
  | Tick hw => fst (run_iteration hw th)
  | StopMotors => fst (stop_motors th)
  | Stop => fst (stop th)
  end.

Definition run_ops (ops : list Op) (th : AzimuthThread) : AzimuthThread :=
  fold_left (fun s o => exec o s) ops th.

End Azimuth8.

(** ** Moon phase names *)

Inductive PhaseName : Type :=
| New_Moon
| Waxing_Crescent
| First_Quarter
| Waxing_Gibbous
| Full_Moon
| Waning_Gibbous
| Last_Quarter
| Waning_Crescent.

(** The label the code shows for a phase. *)
Definition phase_text (p : PhaseName) : string :=
  match p with
  | New_Moon => "New Moon"
  | Waxing_Crescent => "Waxing Crescent"
  | First_Quarter => "First Quarter"
  | Waxing_Gibbous => "Waxing Gibbous"
  | Full_Moon => "Full Moon"
  | Waning_Gibbous => "Waning Gibbous"
  | Last_Quarter => "Last Quarter"
  | Waning_Crescent => "Waning Crescent"
  end.

Definition is_waxing (p : PhaseName) : bool :=
  match p with
  | Waxing_Crescent | Waxing_Gibbous => true
  | _ => false
  end.

Definition is_waning (p : PhaseName) : bool :=
  match p with
  | Waning_Gibbous | Waning_Crescent => true
  | _ => false
  end.

(** ** Moon phase, [telescope/modules/moon.py] *)

Module Moon1.

(** [x >= y] and [x <= y] as Python evaluates them. *)
Definition geb (x y : Q) : bool := Qle_bool y x.
Definition leb (x y : Q) : bool := Qle_bool x y.

(** [MoonPositionThread.calculate_moon_phase]. *)
Definition calculate_moon_phase (illumination : Q) : PhaseName :=
  if geb illumination 98 then Full_Moon
  else if geb illumination 50 then Waning_Gibbous
  else if geb illumination 2 then Waning_Crescent
  else if leb illumination 0 then New_Moon
  else if leb illumination 50 then Waxing_Crescent
  else Waxing_Gibbous.

(** The functions of [math] that [calculate_moon_position] calls. *)
Record MathLib : Type := {
  sin : Q -> Q;
  cos : Q -> Q;
  acos : Q -> Q;
  atan2 : Q -> Q -> Q
}.

(** What astropy returns for a body: equatorial coordinates in radians
    and the distance in astronomical units. *)
Record Body : Type := {
  ra_rad : Q;
  dec_rad : Q;
  distance_au : Q
}.

(** The illumination and phase name part of [calculate_moon_position]. *)
Definition illumination_of (m : MathLib) (moon sun : Body) : Q :=
  let elongation :=
    acos m (sin m (dec_rad moon) * sin m (dec_rad sun)
            + cos m (dec_rad moon) * cos m (dec_rad sun)
              * cos m (ra_rad moon - ra_rad sun)) in
  let phase_angle :=
    atan2 m (distance_au sun * sin m elongation)
            (distance_au moon - distance_au sun * cos m elongation) in
  (1 + cos m phase_angle) / 2 * 100.

Definition phase_of_position (m : MathLib) (moon sun : Body) : Q * PhaseName :=
  let illumination := illumination_of m moon sun in
  (illumination, calculate_moon_phase illumination).

End Moon1.

(** ** Ephemeris calls of [telescope_7] *)

(** What a call of the ephem library gives: altitude and azimuth in
    radians, or an exception with its text. *)
Inductive EphemResult : Type :=
| computed (alt_rad az_rad : Q)
| raised (msg : string).

(** The library as the threads use it: observer latitude and longitude,
    the date the observer is set to, and the answer for each body. *)
Record Ephem : Type := {
  sun_at : Q -> Q -> Q -> EphemResult;
  moon_at : Q -> Q -> Q -> EphemResult
}.

(** [ephem.pi], a double. *)
Definition ephem_pi : Q := 884279719003555 # 281474976710656.

(** What a tracking thread emits. *)
Inductive TrackOut : Type :=
| track_position (alt az : Q)
| track_error (msg : string).

(** ** Moon tracking, [telescope_7/modules/moon.py] *)

Module Moon7.

Record MoonTrackingThread : Type := mkThread {
  running : bool;
  lat : Q;
  lon : Q;
  auto_track : bool;
  update_interval : Z
}.

Definition init (lat0 lon0 : Q) : MoonTrackingThread :=
  mkThread true lat0 lon0 false 2.

Definition set_location (lat0 lon0 : Q) (th : MoonTrackingThread) :=
  mkThread (running th) lat0 lon0 (auto_track th) (update_interval th).

Definition set_auto_track (enable : bool) (th : MoonTrackingThread) :=
  mkThread (running th) (lat th) (lon th) enable (update_interval th).

(** [calculate_moon_position]; [now] is what [ephem.now()] returns. *)
Definition calculate_moon_position (e : Ephem) (now : Q) (th : MoonTrackingThread)
  : (Q * Q) * list TrackOut :=
  match moon_at e (lat th) (lon th) now with
  | computed alt_rad az_rad =>
      ((alt_rad * 180 / ephem_pi, az_rad * 180 / ephem_pi), [])
  | raised msg =>
      ((0, 0),
       [track_error ("Moon Calculation Error: " ++ substring 0 30 msg ++ "...")])
  end.

(** One iteration of the loop of [run]: what the thread emits. *)
Definition run_iteration (e : Ephem) (now : Q) (th : MoonTrackingThread)
  : list TrackOut :=
  if negb (running th) then []
  else if auto_track th then
    let '((alt, az), errs) := calculate_moon_position e now th in
    errs ++ [track_position alt az]
  else [].

(** The text selection of [MoonTrackingWidget.update_moon_phase];
    [phase] is ephem's [moon.phase]. *)
Definition phase_text_of (phase : Q) : PhaseName :=
  if Py.ltb phase 10 then New_Moon
  else if Py.ltb phase 40 then Waxing_Crescent
  else if Py.ltb phase 60 then First_Quarter
  else if Py.ltb phase 90 then Waxing_Gibbous
  else if Py.ltb phase 100 then Full_Moon
  else if Py.ltb phase 140 then Waning_Gibbous
  else if Py.ltb phase 160 then Last_Quarter
  else Waning_Crescent.

End Moon7.

(** ** Moon calculation, [telescope_8/modules/moon.py] *)

Module Moon8.

(** [MOON_PHASES] without the emoji column. *)
Definition MOON_PHASES : list (PhaseName * Q) :=
  [ (New_Moon, 0); (Waxing_Crescent, 0.125); (First_Quarter, 0.25);
    (Waxing_Gibbous, 0.375); (Full_Moon, 0.5); (Waning_Gibbous, 0.625);
    (Last_Quarter, 0.75); (Waning_Crescent, 0.875) ].

(** [min(xs, key=f)]: the first element whose key is smallest. *)
Fixpoint min_by {A : Type} (key : A -> Q) (best : A) (xs : list A) : A :=
  match xs with
  | [] => best
  | x :: rest => min_by key (if Py.ltb (key x) (key best) then x else best) rest
  end.

(** [get_moon_phase]. *)
Definition get_moon_phase (phase : Q) : PhaseName * Q :=
  let phase := Py.mod_ phase 1 in
  min_by (fun x => Qabs (snd x - phase))
         (hd (New_Moon, 0) MOON_PHASES) (tl MOON_PHASES).

Record MoonData : Type := mkData {
  altitude : Q;
  azimuth : Q;
  phase : Q;
  illumination : Q;
  phase_name : PhaseName;
  tracking : bool;
  visible : bool
}.

Record MoonCalculationThread : Type := mkThread {
  running : bool;
  thread_tracking : bool;
  latitude : Q;
  longitude : Q;
  current_moon_data : MoonData
}.

Definition initial_moon_data : MoonData :=
  mkData 0 0 0 0 New_Moon false false.

Definition init (lat0 lon0 : Q) : MoonCalculationThread :=
  mkThread false false lat0 lon0 initial_moon_data.

(** What the astropy calls give: the Moon's altitude and azimuth in
    degrees and its separation from the Sun in degrees, or an
    exception with its text. *)
Inductive AstroResult : Type :=
| astro (moon_altitude moon_azimuth separation : Q)
| astro_raised (msg : string).

Inductive Out : Type :=
| status_updated (msg : string)
| moon_data_updated (d : MoonData).

(** [calculate_moon_position]; [cosd] is the cosine of an angle given
    in degrees, [math.cos(math.radians(.))]. *)
Definition calculate_moon_position (cosd : Q -> Q) (r : AstroResult)
    (th : MoonCalculationThread) : MoonData * list Out :=
  match r with
  | astro moon_altitude moon_azimuth phase_angle =>
      let illum := (1 + cosd phase_angle) / 2 * 100 in
      let ph :=
        if Qle_bool phase_angle 180 then phase_angle / 360
        else (360 - phase_angle) / 360 + 0.5 in
      let name := fst (get_moon_phase ph) in
      (mkData moon_altitude moon_azimuth ph illum name
              (thread_tracking th) (Py.ltb 0 moon_altitude), [])
  | astro_raised msg =>
      (current_moon_data th, [status_updated ("Calculation error: " ++ msg)])
  end.

(** One iteration of the loop of [run]. *)
Definition run_iteration (cosd : Q -> Q) (r : AstroResult)
    (th : MoonCalculationThread) : MoonCalculationThread * list Out :=
  let '(moon_data, outs) := calculate_moon_position cosd r th in
  (mkThread (running th) (thread_tracking th) (latitude th) (longitude th) moon_data,
   outs ++ [moon_data_updated moon_data]).

End Moon8.

(** ** Sun tracking, [telescope_7/modules/sun.py] *)

Module Sun7.

Record SunTrackingThread : Type := mkThread {
  running : bool;
  lat : Q;
  lon : Q;
  auto_track : bool;
  update_interval : Z
}.

Definition init (lat0 lon0 : Q) : SunTrackingThread :=
  mkThread true lat0 lon0 false 2.

Definition set_auto_track (enable : bool) (th : SunTrackingThread) :=
  mkThread (running th) (lat th) (lon th) enable (update_interval th).

(** [calculate_sun_position]; [now] is what [ephem.now()] returns. *)
Definition calculate_sun_position (e : Ephem) (now : Q) (th : SunTrackingThread)
  : (Q * Q) * list TrackOut :=
  match sun_at e (lat th) (lon th) now with
  | computed alt_rad az_rad =>
      ((alt_rad * 180 / ephem_pi, az_rad * 180 / ephem_pi), [])
  | raised msg =>
      ((0, 0), [track_error ("Calc Error: " ++ substring 0 25 msg ++ "...")])
  end.

(** One iteration of the loop of [run]: what the thread emits. *)
Definition run_iteration (e : Ephem) (now : Q) (th : SunTrackingThread)
  : list TrackOut :=
  if negb (running th) then []
  else if auto_track th then
    let '((alt, az), errs) := calculate_sun_position e now th in
    errs ++ [track_position alt az]
  else [].

(** The widget's own fields and the state of its three controls. *)
Record SunTrackingWidget : Type := mkWidget {
  filter_checked : bool;           (* [self.filter_checked] *)
  filter_check : bool;             (* [self.filter_check.isChecked()] *)
  slew_btn_enabled : bool;
  auto_track_btn_enabled : bool;
  auto_track_btn_checked : bool    (* [self.auto_track_btn.isChecked()] *)
}.

Definition init_widget : SunTrackingWidget :=
  mkWidget false false false false false.

End Sun7.

(** ** The main window, [telescope_7/main.py] *)

Inductive Axis : Type := Alt | Az.

(** What the handlers hand to the front end, the database and the
    camera.  Texts that only format numbers are left out; the numbers
    are kept. *)
Inductive Effect : Type :=
| critical (title text : string)       (* [QMessageBox.critical] *)
| information (title : string)         (* [QMessageBox.information] *)
| slider_set (a : Axis) (v : Z)        (* [alt_slider] / [az_slider] [.setValue] *)
| labels_set (alt az : Q)              (* the two position labels *)
| db_log (alt az : Q) (target event : string)
| status_bar (msg : string)
| auto_record (enabled : bool) (target : string)
| ai_context (current_alt current_az : Q).

Inductive CheckState : Type := Unchecked | PartiallyChecked | Checked.

Definition is_Checked (st : CheckState) : bool :=
  match st with Checked => true | _ => false end.

Module Main7.

Record GUI : Type := mkGUI {
  altitude : Altitude7.AltitudeMotorThread;
  azimuth : Azimuth7.AzimuthMotorThread;
  moon_thread : Moon7.MoonTrackingThread;
  sun_thread : Sun7.SunTrackingThread;
  sun_widget : Sun7.SunTrackingWidget;
  trace : list Effect
}.

(** The window after [__init__], for the configured location. *)
Definition init (lat0 lon0 : Q) : GUI :=
  mkGUI Altitude7.init Azimuth7.init (Moon7.init lat0 lon0)
        (Sun7.init lat0 lon0) Sun7.init_widget [].

Definition with_altitude (a : Altitude7.AltitudeMotorThread) (g : GUI) : GUI :=
  mkGUI a (azimuth g) (moon_thread g) (sun_thread g) (sun_widget g) (trace g).
Definition with_azimuth (a : Azimuth7.AzimuthMotorThread) (g : GUI) : GUI :=
  mkGUI (altitude g) a (moon_thread g) (sun_thread g) (sun_widget g) (trace g).
Definition with_moon_thread (t : Moon7.MoonTrackingThread) (g : GUI) : GUI :=
  mkGUI (altitude g) (azimuth g) t (sun_thread g) (sun_widget g) (trace g).
Definition with_sun_thread (t : Sun7.SunTrackingThread) (g : GUI) : GUI :=
  mkGUI (altitude g) (azimuth g) (moon_thread g) t (sun_widget g) (trace g).
Definition with_sun_widget (w : Sun7.SunTrackingWidget) (g : GUI) : GUI :=
  mkGUI (altitude g) (azimuth g) (moon_thread g) (sun_thread g) w (trace g).
Definition emit (es : list Effect) (g : GUI) : GUI :=
  mkGUI (altitude g) (azimuth g) (moon_thread g) (sun_thread g) (sun_widget g)
        (trace g ++ es).

(** [update_ai_context]: reads the two current angles. *)
Definition update_ai_context (g : GUI) : GUI :=
  emit [ai_context (Altitude7.current_alt (altitude g))
                   (Azimuth7.current_az (azimuth g))] g.

(** The part the two slew handlers share: the two axis targets, the
    two sliders, the log entry, the status bar, the AI context. *)
Definition slew_to (target event status : string) (target_alt target_az : Q)
    (g : GUI) : GUI :=
  let safe_alt := Py.max 0 (Py.min 90 target_alt) in
  let safe_az := Py.mod_ target_az 360 in
  let g := with_altitude (Altitude7.set_target safe_alt (altitude g)) g in
  let g := emit [slider_set Alt (Py.int safe_alt)] g in
  let g := with_azimuth (Azimuth7.set_target safe_az (azimuth g)) g in
  let g := emit [slider_set Az (Py.int safe_az)] g in
  let g := emit [db_log safe_alt safe_az target event] g in
  let g := emit [status_bar status] g in
  update_ai_context g.

(** [_slew_to_moon_position]. *)
Definition _slew_to_moon_position (target_alt target_az : Q) (g : GUI) : GUI :=
  slew_to "Moon" "goto_moon" "Slewing to Moon" target_alt target_az g.

(** [_slew_to_sun_position]. *)
Definition _slew_to_sun_position (target_alt target_az : Q) (g : GUI) : GUI :=
  if negb (Sun7.filter_check (sun_widget g)) then
    emit [critical "SOLAR WARNING" "SOLAR FILTER REQUIRED! Aborting sun slew."] g
  else
    slew_to "Sun" "goto_sun" "Slewing to Sun" target_alt target_az g.

(** [_on_sun_tracking_toggled] and [_on_moon_tracking_toggled]: they
    switch the camera recording, which is outside the model. *)
Definition _on_sun_tracking_toggled (enabled : bool) (g : GUI) : GUI :=
  emit [auto_record enabled "Sun (Filter)"] g.
Definition _on_moon_tracking_toggled (enabled : bool) (g : GUI) : GUI :=
  emit [auto_record enabled "Moon"] g.

(** *** Methods of [SunTrackingWidget], with its signals delivered to
    the handlers [main.py] connects them to. *)

(** [SunTrackingThread.set_auto_track] on the widget's thread.  Its
    status signal goes to [update_status], which does nothing. *)
Definition set_auto_track (enable : bool) (g : GUI) : GUI :=
  with_sun_thread (Sun7.set_auto_track enable (sun_thread g)) g.

(** [update_sun_position], the slot of the thread's [position_signal]:
    the labels, then [slew_to_sun.emit]. *)
Definition update_sun_position (alt az : Q) (g : GUI) : GUI :=
  _slew_to_sun_position alt az (emit [labels_set alt az] g).

(** [show_error], the slot of the thread's [error_signal]. *)
Definition show_error (msg : string) (g : GUI) : GUI :=
  emit [critical "Error" (substring 0 50 msg)] g.

(** The thread's signals reach their slots in the order of emission. *)
Definition deliver_sun (outs : list TrackOut) (g : GUI) : GUI :=
  fold_left
    (fun g o => match o with
                | track_error msg => show_error msg g
                | track_position alt az => update_sun_position alt az g
                end)
    outs g.

(** [toggle_filter], the slot of the filter check box. *)
Definition toggle_filter (state : CheckState) (g : GUI) : GUI :=
  let w := sun_widget g in
  let fc := is_Checked state in
  let g := with_sun_widget
             (Sun7.mkWidget fc (Sun7.filter_check w) fc fc
                            (Sun7.auto_track_btn_checked w)) g in
  if fc then g
  else if Sun7.auto_track_btn_checked w then
    let w := sun_widget g in
    let g := with_sun_widget
               (Sun7.mkWidget (Sun7.filter_checked w) (Sun7.filter_check w)
                              (Sun7.slew_btn_enabled w)
                              (Sun7.auto_track_btn_enabled w) false) g in
    set_auto_track false g
  else g.

(** [slew_to_sun_position], the slot of the slew button. *)
Definition slew_to_sun_position (e : Ephem) (now : Q) (g : GUI) : GUI :=
  if negb (Sun7.filter_checked (sun_widget g)) then
    emit [critical "SAFETY WARNING" "Solar filter required! Damage risk!"] g
  else
    let '((alt, az), errs) := Sun7.calculate_sun_position e now (sun_thread g) in
    let g := deliver_sun errs g in
    let g := update_sun_position alt az g in
    emit [information "Slew to Sun"] g.

(** [toggle_auto_track], the slot of the auto-track check box. *)
Definition toggle_auto_track (state : CheckState) (g : GUI) : GUI :=
  let enable := is_Checked state in
  if enable && negb (Sun7.filter_checked (sun_widget g)) then
    let g := emit [critical "SAFETY ERROR" "Solar filter required!"] g in
    let w := sun_widget g in
    with_sun_widget
      (Sun7.mkWidget (Sun7.filter_checked w) (Sun7.filter_check w)
                     (Sun7.slew_btn_enabled w)
                     (Sun7.auto_track_btn_enabled w) false) g
  else
    let g := set_auto_track enable g in
    let g := _on_sun_tracking_toggled enable g in
    emit [information "Auto Track"] g.

(** One iteration of the loop of [SunTrackingThread.run], with its
    signals delivered. *)
Definition sun_run_iteration (e : Ephem) (now : Q) (g : GUI) : GUI :=
  deliver_sun (Sun7.run_iteration e now (sun_thread g)) g.

(** *** The Moon side: [MoonTrackingWidget] delivers to
    [_slew_to_moon_position]. *)

Definition update_moon_position (alt az : Q) (g : GUI) : GUI :=
  _slew_to_moon_position alt az (emit [labels_set alt az] g).

Definition show_moon_error (msg : string) (g : GUI) : GUI :=
  emit [critical "Moon Tracking Error" msg] g.

Definition deliver_moon (outs : list TrackOut) (g : GUI) : GUI :=
  fold_left
    (fun g o => match o with
                | track_error msg => show_moon_error msg g
                | track_position alt az => update_moon_position alt az g
                end)
    outs g.

Definition slew_to_moon_position (e : Ephem) (now : Q) (g : GUI) : GUI :=
  let '((alt, az), errs) := Moon7.calculate_moon_position e now (moon_thread g) in
  let g := deliver_moon errs g in
  let g := update_moon_position alt az g in
  emit [information "Slew to Moon"] g.

Definition toggle_moon_auto_track (state : CheckState) (g : GUI) : GUI :=
  let enable := is_Checked state in
  let g := with_moon_thread (Moon7.set_auto_track enable (moon_thread g)) g in
  let g := _on_moon_tracking_toggled enable g in
  emit [information "Auto Track"] g.

Definition moon_run_iteration (e : Ephem) (now : Q) (g : GUI) : GUI :=
  deliver_moon (Moon7.run_iteration e now (moon_thread g)) g.

(** *** Executions *)

(** What can happen to the window, one event at a time.  A check box
    that changes state stores the new state and calls its slot. *)
Inductive Op : Type :=
| FilterChanged (checked : bool)
| AutoTrackChanged (checked : bool)
| SlewToSunClicked (now : Q)
| SunThreadIteration (now : Q)
| SunPositionDelivered (alt az : Q)
| MoonAutoTrackChanged (checked : bool)
| SlewToMoonClicked (now : Q)
| MoonThreadIteration (now : Q)
| AltitudeOp (o : Altitude7.Op)
| AzimuthOp (o : Azimuth7.Op).

Definition state_of (checked : bool) : CheckState :=
  if checked then Checked else Unchecked.

(** The filter check box takes the state [checked]: [confirm_safety]. *)
Definition confirm_safety (checked : bool) (g : GUI) : GUI :=
  let w := sun_widget g in
  let g := with_sun_widget
             (Sun7.mkWidget (Sun7.filter_checked w) checked
                            (Sun7.slew_btn_enabled w)
                            (Sun7.auto_track_btn_enabled w)
                            (Sun7.auto_track_btn_checked w)) g in
  toggle_filter (state_of checked) g.

(** The auto-track check box takes the state [checked]. *)
Definition auto_track_changed (checked : bool) (g : GUI) : GUI :=
  let w := sun_widget g in
  let g := with_sun_widget
             (Sun7.mkWidget (Sun7.filter_checked w) (Sun7.filter_check w)
                            (Sun7.slew_btn_enabled w)
                            (Sun7.auto_track_btn_enabled w) checked) g in
  toggle_auto_track (state_of checked) g.

Definition exec (e : Ephem) (o : Op) (g : GUI) : GUI :=
  match o with
  | FilterChanged b => confirm_safety b g
  | AutoTrackChanged b => auto_track_changed b g
  | SlewToSunClicked now => slew_to_sun_position e now g
  | SunThreadIteration now => sun_run_iteration e now g
  | SunPositionDelivered alt az => update_sun_position alt az g
  | MoonAutoTrackChanged b => toggle_moon_auto_track (state_of b) g
  | SlewToMoonClicked now => slew_to_moon_position e now g
  | MoonThreadIteration now => moon_run_iteration e now g
  | AltitudeOp o => with_altitude (Altitude7.exec o (altitude g)) g
  | AzimuthOp o => with_azimuth (Azimuth7.exec o (azimuth g)) g
  end.

Definition run_ops (e : Ephem) (ops : list Op) (g : GUI) : GUI :=
  fold_left (fun s o => exec e o s) ops g.

(** Sun tracking is on: the thread re-aims at every iteration. *)
Definition sun_tracking (g : GUI) : bool := Sun7.auto_track (sun_thread g).

End Main7.

(** ** Compass names, [telescope_7/main.py] *)

Module Cardinal7.

(** The table of [degrees_to_cardinal]: name, start, end. *)
Definition dirs : list (string * Q * Q) :=
  [ ("N", 0, 22.5); ("NE", 22.5, 67.5); ("E", 67.5, 112.5);
    ("SE", 112.5, 157.5); ("S", 157.5, 202.5); ("SW", 202.5, 247.5);
    ("W", 247.5, 292.5); ("NW", 292.5, 337.5); ("N", 337.5, 360) ]%string.

(** The [for] loop: the name of the first row with
    [start <= degrees < end]. *)
Fixpoint first_dir (degrees : Q) (rows : list (string * Q * Q)) : option string :=
  match rows with
  | [] => None
  | (name, start, end_) :: rest =>
      if Qle_bool start degrees && Py.ltb degrees end_ then Some name
      else first_dir degrees rest
  end.

(** [degrees_to_cardinal]. *)
Definition degrees_to_cardinal (degrees : Q) : string :=
  let degrees := Py.mod_ degrees 360 in
  match first_dir degrees dirs with
  | Some name => name
  | None => "N"%string
  end.

End Cardinal7.

(** ** Recording while tracking, [telescope_7/main.py] and
    [telescope_7/modules/webcam.py] *)

Module Camera7.

(** The two flags of the camera thread and the flag of the main
    window. *)
Record Camera : Type := mkCamera {
  running : bool;
  recording : bool;
  camera_active : bool
}.

(** The camera thread after [__init__]. *)
Definition init : Camera := mkCamera false false false.

(** [WebcamWidget.toggle_camera]: [start_camera] or [stop_camera]. *)
Definition toggle_camera (c : Camera) : Camera :=
  if negb (running c) then mkCamera true (recording c) (camera_active c)
  else mkCamera false false (camera_active c).

(** [WebcamWidget.toggle_recording]. *)
Definition toggle_recording (c : Camera) : Camera :=
  mkCamera (running c) (negb (recording c)) (camera_active c).

(** [_handle_tracking_auto_record]. *)
Definition _handle_tracking_auto_record (enabled : bool) (target : string)
    (c : Camera) : Camera * list Effect :=
  if enabled then
    let '(c, out1) :=
      if negb (running c) then
        let c := toggle_camera c in
        (mkCamera (running c) (recording c) true,
         [status_bar ("Camera ON for " ++ target ++ " tracking")])
      else (c, []) in
    let '(c, out2) :=
      if negb (recording c) then
        (toggle_recording c,
         [status_bar ("Recording: " ++ target);
          db_log 0 0 target "auto_record_start"])
      else (c, []) in
    (c, out1 ++ out2)
  else
    if recording c then
      (toggle_recording c,
       [status_bar ("Recording stopped: " ++ target);
        db_log 0 0 target "auto_record_stop"])
    else (c, []).

(** The camera after the [auto_record] requests of a trace of the main
    window, in their order; the other effects do not touch it. *)
Definition replay (trace : list Effect) (c : Camera) : Camera :=
  fold_left
    (fun c eff => match eff with
                  | auto_record enabled target =>
                      fst (_handle_tracking_auto_record enabled target c)
                  | _ => c
                  end)
    trace c.

End Camera7.

(** ** The Moon widget of [telescope_8/modules/moon.py] *)

Module Moon8Widget.

(** The thread together with the location entry of [SETTINGS]. *)
Record State : Type := mkState {
  thread : Moon8.MoonCalculationThread;
  settings_latitude : Q;
  settings_longitude : Q
}.

(** The thread as [__init__] builds it from the settings. *)
Definition init (lat0 lon0 : Q) : State :=
  mkState (Moon8.init lat0 lon0) lat0 lon0.

(** Python truth of a float: zero is false. *)
Definition truthy (x : Q) : bool := negb (Qeq_bool x 0).

(** [MoonCalculationThread.set_location]. *)
Definition set_location (latitude longitude : Q) (s : State) : State :=
  let th := thread s in
  let lat := if truthy latitude then latitude else settings_latitude s in
  let lon := if truthy longitude then longitude else settings_longitude s in
  mkState (Moon8.mkThread (Moon8.running th) (Moon8.thread_tracking th) lat lon
                          (Moon8.current_moon_data th))
          lat lon.

Definition with_tracking (b : bool) (d : Moon8.MoonData) : Moon8.MoonData :=
  Moon8.mkData (Moon8.altitude d) (Moon8.azimuth d) (Moon8.phase d)
               (Moon8.illumination d) (Moon8.phase_name d) b (Moon8.visible d).

(** [start_tracking] and [stop_tracking]: the flag of the thread and
    the entry of the cached data. *)
Definition set_tracking (b : bool) (th : Moon8.MoonCalculationThread)
  : Moon8.MoonCalculationThread * list Moon8.Out :=
  (Moon8.mkThread (Moon8.running th) b (Moon8.latitude th) (Moon8.longitude th)
                  (with_tracking b (Moon8.current_moon_data th)),
   [Moon8.status_updated (if b then "Moon tracking started"
                          else "Moon tracking stopped")]).

Definition start_tracking := set_tracking true.
Definition stop_tracking := set_tracking false.

(** What the widget shows or emits. *)
Inductive Shown : Type :=
| moon_position_updated (altitude azimuth : Q)
| status_label (msg : string)
| buttons (start_enabled stop_enabled : bool)
| visibility_label (msg : string).

(** [update_location]: the two numbers are what [float(...)] made of
    the two input fields. *)
Definition update_location (lat lon : Q) (s : State) : State * list Shown :=
  if negb (Qle_bool (-90) lat && Qle_bool lat 90)
     || negb (Qle_bool (-180) lon && Qle_bool lon 180)
  then (s, [status_label "Invalid location - Invalid coordinates"])
  else (set_location lat lon s, [status_label "Location updated"]).



(** What reaches the thread, one event at a time. *)
Inductive Op : Type :=
| StartTracking
| StopTracking
| Iteration (r : Moon8.AstroResult)
| UpdateLocation (lat lon : Q).

Definition exec (cosd : Q -> Q) (o : Op) (s : State) : State :=
  match o with
  | StartTracking =>
      mkState (fst (start_tracking (thread s)))
              (settings_latitude s) (settings_longitude s)
  | StopTracking =>
      mkState (fst (stop_tracking (thread s)))
              (settings_latitude s) (settings_longitude s)
  | Iteration r =>
      mkState (fst (Moon8.run_iteration cosd r (thread s)))
              (settings_latitude s) (settings_longitude s)
  | UpdateLocation lat lon => fst (update_location lat lon s)
  end.

Definition run_ops (cosd : Q -> Q) (ops : list Op) (s : State) : State :=
  fold_left (fun s o => exec cosd o s) ops s.

End Moon8Widget.

(** * Vocabulary of the properties *)

(** ** Axis domains *)

Definition altitude_in_domain (th : Altitude7.AltitudeMotorThread) : Prop :=
  (0 <= Altitude7.current_alt th <= 90) /\ (0 <= Altitude7.target_alt th <= 90).

Definition azimuth_in_domain (th : Azimuth7.AzimuthMotorThread) : Prop :=
  (0 <= Azimuth7.current_az th < 360) /\ (0 <= Azimuth7.target_az th < 360).


(** ** The run from 350 to 10 *)

(** The axis at 350 with the target 10. *)
Definition at_350_to_10 : Azimuth7.AzimuthMotorThread :=
  Azimuth7.set_target 10 (Azimuth7.mkThread true 350 0 1 true).







(** ** Phase names and the side of the cycle *)

(** What the specification asks of a naming of the phases that is
    given the illumination and the rate at which the elongation
    changes: while the elongation grows the name is not a waning one,
    and while it shrinks the name is not a waxing one. *)
Definition side_follows_elongation_rate (name : Q -> Q -> PhaseName) : Prop :=
  forall illumination rate,
    (0 < rate -> is_waning (name illumination rate) = false)
    /\ (rate < 0 -> is_waxing (name illumination rate) = false).

(** ** Sample inputs *)

(** An ephemeris for the examples: the Sun at 45 degrees of altitude,
    due south, until the date 1, and an exception afterwards; the
    Moon likewise at 30 degrees, due east. *)
Definition sample_ephem : Ephem :=
  {| sun_at := fun _ _ now =>
       if Qle_bool now 1 then computed (ephem_pi / 4) ephem_pi
       else raised "math domain error";
     moon_at := fun _ _ now =>
       if Qle_bool now 1 then computed (ephem_pi / 6) (ephem_pi / 2)
       else raised "math domain error" |}.

(** ** The Sun side of the main window *)

(** The Sun side of the window: the tracking thread and the widget. *)
Definition sun_part (g : Main7.GUI) : Sun7.SunTrackingThread * Sun7.SunTrackingWidget :=
  (Main7.sun_thread g, Main7.sun_widget g).

(** The two axes. *)
Definition axes (g : Main7.GUI) : Altitude7.AltitudeMotorThread * Azimuth7.AzimuthMotorThread :=
  (Main7.altitude g, Main7.azimuth g).

(** What holds of every window the operations can produce: the thread
    tracks exactly when the auto-track box is checked, the widget's
    flag is the state of the filter box, and auto-track is checked
    only under a confirmed filter. *)
Definition interlock_consistent (g : Main7.GUI) : Prop :=
  Sun7.auto_track (Main7.sun_thread g) = Sun7.auto_track_btn_checked (Main7.sun_widget g)
  /\ Sun7.filter_checked (Main7.sun_widget g) = Sun7.filter_check (Main7.sun_widget g)
  /\ (Sun7.auto_track_btn_checked (Main7.sun_widget g) = true ->
      Sun7.filter_checked (Main7.sun_widget g) = true).


(** ** Compass bearings *)


(** ** Runs of the altitude loop *)

(** [n] loop iterations of the altitude thread with a working driver. *)
Definition altitude_ticks (n : nat) (th : Altitude7.AltitudeMotorThread)
  : Altitude7.AltitudeMotorThread :=
  Nat.iter n Altitude7.tick th.

(** The altitude loop is alive: it has a motor and has not been stopped. *)
Definition altitude_alive (th : Altitude7.AltitudeMotorThread) : Prop :=
  Altitude7.motor th = true /\ Altitude7.running th = true.

(** The axis is within the tolerance of the loop. *)
Definition altitude_arrived (th : Altitude7.AltitudeMotorThread) : Prop :=
  Qabs (Altitude7.target_alt th - Altitude7.current_alt th) < 0.1.

(** ** Runs of the azimuth loop *)

(** The azimuth loop of [telescope_7] is alive. *)
Definition azimuth_alive (th : Azimuth7.AzimuthMotorThread) : Prop :=
  Azimuth7.motor th = true /\ Azimuth7.running th = true.

(** The way left to the target, the shorter way round. *)
Definition azimuth_way (th : Azimuth7.AzimuthMotorThread) : Q :=
  Azimuth7.shortest_diff (Azimuth7.current_az th) (Azimuth7.target_az th).

(** The axis is within the tolerance of the loop. *)
Definition azimuth_arrived (th : Azimuth7.AzimuthMotorThread) : Prop :=
  Qabs (azimuth_way th) < 0.1.

(** ** The Moon widget of [telescope_8] *)



(** ** Sliders of the main window *)


(** * Properties *)

(** ** Python numerics *)

Section PyFacts.

Lemma py_ltb_spec (x y : Q) : Py.ltb x y = true <-> x < y.
Proof.
  unfold Py.ltb. rewrite negb_true_iff. split; intro H.
  - apply Qnot_le_lt. intro Hle. apply Qle_bool_iff in Hle. congruence.
  - destruct (Qle_bool y x) eqn:E; [|reflexivity].
    apply Qle_bool_iff in E. lra.
Qed.

Lemma py_ltb_false (x y : Q) : Py.ltb x y = false <-> y <= x.
Proof.
  unfold Py.ltb. rewrite negb_false_iff. apply Qle_bool_iff.
Qed.

Lemma py_ltb_reflect (x y : Q) : reflect (x < y) (Py.ltb x y).
Proof.
  destruct (Py.ltb x y) eqn:E; constructor.
  - now apply py_ltb_spec.
  - apply py_ltb_false in E. lra.
Qed.

Lemma py_max_case (a b : Q) :
  (a < b /\ Py.max a b = b) \/ (b <= a /\ Py.max a b = a).
Proof.
  unfold Py.max. destruct (py_ltb_reflect a b); [left | right]; split; auto; lra.
Qed.

Lemma py_min_case (a b : Q) :
  (b < a /\ Py.min a b = b) \/ (a <= b /\ Py.min a b = a).
Proof.
  unfold Py.min. destruct (py_ltb_reflect b a); [left | right]; split; auto; lra.
Qed.

(** The clamp [max(lo, min(hi, x))] lands in [[lo, hi]]. *)
Lemma py_clamp_range (lo hi x : Q) :
  lo <= hi -> lo <= Py.max lo (Py.min hi x) <= hi.
Proof.
  intro H.
  destruct (py_min_case hi x) as [[H1 ->] | [H1 ->]];
    destruct (py_max_case lo x) as [[H2 E2] | [H2 E2]];
    destruct (py_max_case lo hi) as [[H3 E3] | [H3 E3]];
    rewrite ?E2, ?E3; lra.
Qed.

(** Inside the range the clamp is the identity. *)
Lemma py_clamp_id (lo hi x : Q) :
  lo <= x <= hi -> Py.max lo (Py.min hi x) == x.
Proof.
  intros [H1 H2].
  destruct (py_min_case hi x) as [[H3 ->] | [H3 ->]];
    [ destruct (py_max_case lo x) as [[H4 ->] | [H4 ->]]
    | destruct (py_max_case lo hi) as [[H4 ->] | [H4 ->]] ]; lra.
Qed.

(** Below the range the clamp answers the lower bound. *)
Lemma py_clamp_below (lo hi x : Q) :
  lo <= hi -> x <= lo -> Py.max lo (Py.min hi x) == lo.
Proof.
  intros H1 H2.
  destruct (py_min_case hi x) as [[H3 ->] | [H3 ->]];
    [ destruct (py_max_case lo x) as [[H4 ->] | [H4 ->]]
    | destruct (py_max_case lo hi) as [[H4 ->] | [H4 ->]] ]; lra.
Qed.

Lemma py_clamp_idem (lo hi x : Q) :
  lo <= hi ->
  Py.max lo (Py.min hi (Py.max lo (Py.min hi x))) == Py.max lo (Py.min hi x).
Proof.
  intro H. apply py_clamp_id. now apply py_clamp_range.
Qed.

Lemma Qfloor_unique (x : Q) (n : Z) :
  inject_Z n <= x -> x < inject_Z (n + 1) -> Qfloor x = n.
Proof.
  intros H1 H2.
  pose proof (Qfloor_le x) as F1. pose proof (Qlt_floor x) as F2.
  assert (A : (n < Qfloor x + 1)%Z) by (rewrite Zlt_Qlt; lra).
  assert (B : (Qfloor x < n + 1)%Z) by (rewrite Zlt_Qlt; lra).
  lia.
Qed.

(** [x % m] lies in [[0, m)] for a positive [m]. *)
Lemma py_mod_range (x m : Q) : 0 < m -> 0 <= Py.mod_ x m < m.
Proof.
  intro Hm. unfold Py.mod_.
  pose proof (Qfloor_le (x / m)) as F1. pose proof (Qlt_floor (x / m)) as F2.
  rewrite inject_Z_plus in F2. change (inject_Z 1) with 1 in F2.
  set (f := inject_Z (Qfloor (x / m))) in *.
  assert (E : x == m * (x / m)) by (field; lra).
  set (y := x / m) in *.
  assert (G1 : m * f <= m * y) by (apply Qmult_le_l; lra).
  assert (G2 : m * y < m * (f + 1)) by (apply Qmult_lt_l; lra).
  split; lra.
Qed.

(** [x % m] is [x - m * k] as soon as that lies in [[0, m)]. *)
Lemma py_mod_unique (x m : Q) (k : Z) :
  0 < m -> 0 <= x - m * inject_Z k < m -> Py.mod_ x m == x - m * inject_Z k.
Proof.
  intros Hm [H1 H2]. unfold Py.mod_.
  assert (E : Qfloor (x / m) = k).
  { apply Qfloor_unique.
    - apply Qle_shift_div_l; lra.
    - apply Qlt_shift_div_r; [lra|]. rewrite inject_Z_plus.
      change (inject_Z 1) with 1. lra. }
  rewrite E. reflexivity.
Qed.

Lemma py_mod_small (x m : Q) : 0 <= x < m -> Py.mod_ x m == x.
Proof.
  intros [H1 H2].
  rewrite (py_mod_unique x m 0); [ring | lra | ].
  change (inject_Z 0) with 0. lra.
Qed.

Lemma py_mod_idem (x m : Q) : 0 < m -> Py.mod_ (Py.mod_ x m) m == Py.mod_ x m.
Proof.
  intro Hm. apply py_mod_small. now apply py_mod_range.
Qed.

(** Adding whole periods does not change [x % m]. *)
Lemma py_mod_shift (x m : Q) (k : Z) :
  0 < m -> Py.mod_ (x + m * inject_Z k) m == Py.mod_ x m.
Proof.
  intro Hm.
  pose proof (py_mod_range x m Hm) as R. unfold Py.mod_ in R |- *.
  set (f := Qfloor (x / m)) in *.
  assert (E : Qfloor ((x + m * inject_Z k) / m) = (f + k)%Z).
  { apply Qfloor_unique.
    - apply Qle_shift_div_l; [lra|]. rewrite inject_Z_plus. lra.
    - apply Qlt_shift_div_r; [lra|]. rewrite !inject_Z_plus.
      change (inject_Z 1) with 1. lra. }
  rewrite E, inject_Z_plus. ring.
Qed.

Global Instance py_mod_proper : Proper (Qeq ==> Qeq ==> Qeq) Py.mod_.
Proof.
  intros x x' Hx m m' Hm. unfold Py.mod_.
  assert (E : x / m == x' / m') by (rewrite Hx, Hm; reflexivity).
  rewrite (Qfloor_comp _ _ E), Hx, Hm. reflexivity.
Qed.

End PyFacts.

(** ** The shorter way round *)

Section ShortestPath.

(** The two variants compute the difference the same way. *)
Lemma shortest_diff_8_7 (c t : Q) :
  Azimuth8.shortest_diff c t = Azimuth7.shortest_diff c t.
Proof. reflexivity. Qed.

(** The three branches of the computation. *)
Lemma shortest_diff_cases (c t : Q) :
  (180 < Qabs (t - c) /\ 0 < t - c /\ Azimuth7.shortest_diff c t = t - c - 360)
  \/ (180 < Qabs (t - c) /\ t - c <= 0 /\ Azimuth7.shortest_diff c t = t - c + 360)
  \/ (Qabs (t - c) <= 180 /\ Azimuth7.shortest_diff c t = t - c).
Proof.
  unfold Azimuth7.shortest_diff. cbv zeta.
  destruct (py_ltb_reflect 180 (Qabs (t - c))) as [H | H].
  - destruct (py_ltb_reflect 0 (t - c)) as [G | G].
    + left. auto.
    + right. left. repeat split; auto. lra.
  - right. right. split; [lra | reflexivity].
Qed.

Lemma Qabs_gt_pos (d : Q) : 180 < Qabs d -> 0 < d -> 180 < d.
Proof. intros H G. rewrite Qabs_pos in H; lra. Qed.

Lemma Qabs_gt_neg (d : Q) : 180 < Qabs d -> d <= 0 -> d < -180.
Proof. intros H G. rewrite Qabs_neg in H; lra. Qed.

Lemma shortest_diff_bound (c t : Q) :
  0 <= c <= 360 -> 0 <= t <= 360 -> Qabs (Azimuth7.shortest_diff c t) <= 180.
Proof.
  intros Hc Ht. apply Qabs_Qle_condition.
  destruct (shortest_diff_cases c t) as [[H [G ->]] | [[H [G ->]] | [H ->]]].
  - pose proof (Qabs_gt_pos _ H G). lra.
  - pose proof (Qabs_gt_neg _ H G). lra.
  - apply Qabs_Qle_condition in H. lra.
Qed.

Lemma shortest_diff_reaches (c t : Q) :
  Py.mod_ (c + Azimuth7.shortest_diff c t) 360 == Py.mod_ t 360.
Proof.
  destruct (shortest_diff_cases c t) as [[H [G ->]] | [[H [G ->]] | [H ->]]].
  - assert (E : c + (t - c - 360) == t + 360 * inject_Z (-1)) by (simpl; ring).
    rewrite E. apply py_mod_shift. lra.
  - assert (E : c + (t - c + 360) == t + 360 * inject_Z 1) by (simpl; ring).
    rewrite E. apply py_mod_shift. lra.
  - assert (E : c + (t - c) == t) by ring.
    rewrite E. reflexivity.
Qed.

End ShortestPath.

(** C3.  For a current azimuth [c] and a target azimuth [t] of the
    azimuth domain, the difference the run loop computes (in
    [telescope_7] and in [telescope_8]) has magnitude at most 180, and
    [c] plus that difference, taken modulo 360, is [t] modulo 360. *)
Theorem C3_shortest_delta (c t : Q) :
  0 <= c <= 360 -> 0 <= t <= 360 ->
  Qabs (Azimuth7.shortest_diff c t) <= 180
  /\ Py.mod_ (c + Azimuth7.shortest_diff c t) 360 == Py.mod_ t 360
  /\ Qabs (Azimuth8.shortest_diff c t) <= 180
  /\ Py.mod_ (c + Azimuth8.shortest_diff c t) 360 == Py.mod_ t 360.
Proof.
  intros Hc Ht.
  change (Azimuth8.shortest_diff c t) with (Azimuth7.shortest_diff c t).
  pose proof (shortest_diff_bound c t Hc Ht).
  pose proof (shortest_diff_reaches c t).
  auto.
Qed.

Lemma C3_shortest_delta_witness :
  Qabs (Azimuth7.shortest_diff 350 10) <= 180
  /\ Py.mod_ (350 + Azimuth7.shortest_diff 350 10) 360 == Py.mod_ 10 360
  /\ Qabs (Azimuth8.shortest_diff 350 10) <= 180
  /\ Py.mod_ (350 + Azimuth8.shortest_diff 350 10) 360 == Py.mod_ 10 360.
Proof.
  apply (C3_shortest_delta 350 10); split; vm_compute; discriminate.
Defined.

(** ** The axes stay inside their domains *)

Section AxisDomains.

Lemma fold_left_invariant {S O : Type} (P : S -> Prop) (f : S -> O -> S) :
  (forall s o, P s -> P (f s o)) ->
  forall ops s, P s -> P (fold_left f ops s).
Proof.
  intros Hstep ops. induction ops as [|o ops IH]; intros s Hs; simpl.
  - exact Hs.
  - apply IH, Hstep, Hs.
Qed.

Lemma altitude_set_target_domain (t : Q) (th : Altitude7.AltitudeMotorThread) :
  altitude_in_domain th -> altitude_in_domain (Altitude7.set_target t th).
Proof.
  intros [Hc _]. split; simpl; [exact Hc | apply py_clamp_range; lra].
Qed.

Lemma altitude_run_iteration_domain (hw : Driver) (th : Altitude7.AltitudeMotorThread) :
  altitude_in_domain th -> altitude_in_domain (fst (Altitude7.run_iteration hw th)).
Proof.
  intros [Hc Ht]. unfold Altitude7.run_iteration.
  destruct (negb (Altitude7.motor th)); [split; assumption|].
  destruct (negb (Altitude7.running th)); [split; assumption|].
  cbv zeta.
  destruct (Py.ltb (Qabs _) 0.1); [split; assumption|].
  destruct hw as [|msg]; [|split; assumption].
  destruct (Py.ltb 0 _); split; simpl; try assumption;
    apply py_clamp_range; lra.
Qed.

Lemma altitude_exec_domain (th : Altitude7.AltitudeMotorThread) (o : Altitude7.Op) :
  altitude_in_domain th -> altitude_in_domain (Altitude7.exec o th).
Proof.
  intro H. destruct o; simpl;
    try (apply altitude_set_target_domain; exact H);
    try (apply altitude_run_iteration_domain; exact H);
    exact H.
Qed.








End AxisDomains.



(** ** The tie at half a turn *)

(** C5, as stated, fails: with the current azimuth at 270 and
    the target at 90 the difference is exactly -180, it is left as it is,
    and the loop drives the motor backward. *)
Lemma C5_counterexample :
  let th := Azimuth7.mkThread true 270 90 1 true in
  Azimuth7.shortest_diff 270 90 == -180
  /\ snd (Azimuth7.run_iteration drives th)
     = [motor_backward (1 / 5); position_signal (Py.mod_ (270 - 1 * 0.1) 360)]
  /\ Azimuth7.current_az (Azimuth7.tick th) < 270.
Proof.
  split; [reflexivity|]. split; [reflexivity|]. vm_compute. reflexivity.
Qed.

(** C5, amended.  When target and current are exactly half a turn apart
    the difference is not corrected: in both variants it is
    [target - current], so the test [diff > 0] both loops branch on
    holds exactly when the target is the larger angle; the loop of
    [telescope_7] then drives the motor forward, and backward when the
    target is the smaller angle. *)
Theorem C5_half_turn_tie (c t sp : Q) :
  Qabs (t - c) == 180 ->
  Azimuth7.shortest_diff c t == t - c
  /\ Azimuth8.shortest_diff c t == t - c
  /\ Py.ltb 0 (Azimuth7.shortest_diff c t) = Py.ltb c t
  /\ Py.ltb 0 (Azimuth8.shortest_diff c t) = Py.ltb c t
  /\ exists p,
       snd (Azimuth7.run_iteration drives (Azimuth7.mkThread true c t sp true))
       = [ (if Py.ltb c t then motor_forward (sp / 5) else motor_backward (sp / 5));
           position_signal p ].
Proof.
  intro H.
  assert (D : Azimuth7.shortest_diff c t = t - c).
  { destruct (shortest_diff_cases c t) as [[G _] | [[G _] | [_ E]]];
      [lra | lra | exact E]. }
  change (Azimuth8.shortest_diff c t) with (Azimuth7.shortest_diff c t).
  rewrite D. split; [reflexivity|]. split; [reflexivity|].
  assert (S : Py.ltb 0 (t - c) = Py.ltb c t).
  { destruct (py_ltb_reflect c t) as [L | L].
    - apply py_ltb_spec. lra.
    - apply py_ltb_false. lra. }
  split; [exact S|]. split; [exact S|].
  assert (N : Py.ltb (Qabs (t - c)) 0.1 = false) by (apply py_ltb_false; lra).
  unfold Azimuth7.run_iteration; simpl; rewrite D, N.
  destruct (py_ltb_reflect c t) as [L | L].
  - assert (P : Py.ltb 0 (t - c) = true) by (apply py_ltb_spec; lra).
    rewrite P. eexists. reflexivity.
  - assert (P : Py.ltb 0 (t - c) = false) by (apply py_ltb_false; lra).
    rewrite P. eexists. reflexivity.
Qed.

Lemma C5_half_turn_tie_witness :
  Azimuth7.shortest_diff 270 90 == 90 - 270
  /\ Azimuth8.shortest_diff 270 90 == 90 - 270
  /\ Py.ltb 0 (Azimuth7.shortest_diff 270 90) = Py.ltb 270 90
  /\ Py.ltb 0 (Azimuth8.shortest_diff 270 90) = Py.ltb 270 90
  /\ exists p,
       snd (Azimuth7.run_iteration drives (Azimuth7.mkThread true 270 90 1 true))
       = [ (if Py.ltb 270 90 then motor_forward (1 / 5) else motor_backward (1 / 5));
           position_signal p ].
Proof.
  apply (C5_half_turn_tie 270 90 1). reflexivity.
Defined.

(** ** From 350 to 10 through north *)

Section WrapScenario.






End WrapScenario.



(** ** Moon phase names *)

Section PhaseNames.

Global Instance py_ltb_proper : Proper (Qeq ==> Qeq ==> eq) Py.ltb.
Proof.
  intros x x' Hx y y' Hy. unfold Py.ltb. now rewrite Hx, Hy.
Qed.

Lemma calculate_moon_phase_ext (i j : Q) :
  i == j -> Moon1.calculate_moon_phase i = Moon1.calculate_moon_phase j.
Proof.
  intro H. unfold Moon1.calculate_moon_phase, Moon1.geb, Moon1.leb.
  assert (E1 : forall c, Qle_bool c i = Qle_bool c j) by (intro c; now rewrite H).
  assert (E2 : forall c, Qle_bool i c = Qle_bool j c) by (intro c; now rewrite H).
  now rewrite !E1, !E2.
Qed.

Lemma calculate_moon_phase_full (i : Q) :
  Moon1.calculate_moon_phase i = Full_Moon <-> 98 <= i.
Proof.
  unfold Moon1.calculate_moon_phase, Moon1.geb, Moon1.leb. split.
  - destruct (Qle_bool 98 i) eqn:E; [intros _; now apply Qle_bool_iff|].
    destruct (Qle_bool 50 i); [discriminate|].
    destruct (Qle_bool 2 i); [discriminate|].
    destruct (Qle_bool i 0); [discriminate|].
    destruct (Qle_bool i 50); discriminate.
  - intro H. apply Qle_bool_iff in H. now rewrite H.
Qed.

Lemma phase_text_of_ext (i j : Q) :
  i == j -> Moon7.phase_text_of i = Moon7.phase_text_of j.
Proof.
  intro H. unfold Moon7.phase_text_of.
  assert (E : forall c, Py.ltb i c = Py.ltb j c) by (intro c; now rewrite H).
  now rewrite !E.
Qed.

Lemma min_by_ext {A : Type} (k1 k2 : A -> Q) (xs : list A) (best : A) :
  (forall x, k1 x == k2 x) -> Moon8.min_by k1 best xs = Moon8.min_by k2 best xs.
Proof.
  intro H. revert best. induction xs as [|x xs IH]; intro best; simpl.
  - reflexivity.
  - assert (E : Py.ltb (k1 x) (k1 best) = Py.ltb (k2 x) (k2 best))
      by (now rewrite (H x), (H best)).
    rewrite E. apply IH.
Qed.

Lemma get_moon_phase_ext (p q : Q) :
  p == q -> Moon8.get_moon_phase p = Moon8.get_moon_phase q.
Proof.
  intro H. unfold Moon8.get_moon_phase. cbv zeta.
  apply min_by_ext. intro x. now rewrite H.
Qed.

End PhaseNames.

(** C7, as stated, fails: the name is computed from the
    illumination and nothing else.  At 60 percent the answer is
    "Waning Gibbous", also on the nights on which the elongation grows. *)
Lemma C7_counterexample :
  phase_text (Moon1.calculate_moon_phase 60) = "Waning Gibbous"%string
  /\ ~ side_follows_elongation_rate
         (fun illumination _ => Moon1.calculate_moon_phase illumination).
Proof.
  split; [reflexivity|].
  intro H. destruct (H 60 1) as [Hw _].
  assert (P : 0 < 1) by reflexivity.
  specialize (Hw P). vm_compute in Hw. discriminate.
Qed.

(** C7, amended.  The phase name is a function of one number alone: the
    illumination percentage in [telescope] (where 98 percent and more,
    and nothing less, gives "Full Moon") and in [telescope_7], the phase
    fraction got from the Sun-Moon separation in [telescope_8].  Equal
    inputs give equal names; the side of the cycle and the rate of
    change of the elongation are no input.  Each of the three naming
    functions has a waxing and a waning name among its outputs. *)
Theorem C7_phase_name_by_illumination (i j : Q) :
  i == j ->
  Moon1.calculate_moon_phase i = Moon1.calculate_moon_phase j
  /\ (Moon1.calculate_moon_phase i = Full_Moon <-> 98 <= i)
  /\ (forall m moon sun,
        snd (Moon1.phase_of_position m moon sun)
        = Moon1.calculate_moon_phase (Moon1.illumination_of m moon sun))
  /\ Moon7.phase_text_of i = Moon7.phase_text_of j
  /\ Moon8.get_moon_phase i = Moon8.get_moon_phase j
  /\ is_waxing (Moon1.calculate_moon_phase 1) = true
  /\ is_waning (Moon1.calculate_moon_phase 60) = true
  /\ is_waxing (Moon7.phase_text_of 20) = true
  /\ is_waning (Moon7.phase_text_of 100) = true
  /\ is_waxing (fst (Moon8.get_moon_phase 0.125)) = true
  /\ is_waning (fst (Moon8.get_moon_phase 0.625)) = true.
Proof.
  intro H.
  split; [now apply calculate_moon_phase_ext|].
  split; [apply calculate_moon_phase_full|].
  split; [reflexivity|].
  split; [now apply phase_text_of_ext|].
  split; [now apply get_moon_phase_ext|].
  repeat split; vm_compute; reflexivity.
Qed.

Lemma C7_phase_name_by_illumination_witness :
  Moon1.calculate_moon_phase (120 # 2) = Moon1.calculate_moon_phase 60.
Proof.
  refine (proj1 (C7_phase_name_by_illumination (120 # 2) 60 _)).
  vm_compute. reflexivity.
Defined.

(** ** A calculation that fails *)

Section FailingCalculation.

Lemma calculate_sun_position_raised (e : Ephem) (now : Q)
    (th : Sun7.SunTrackingThread) (msg : string) :
  sun_at e (Sun7.lat th) (Sun7.lon th) now = raised msg ->
  Sun7.calculate_sun_position e now th
  = ((0, 0), [track_error ("Calc Error: " ++ substring 0 25 msg ++ "...")]).
Proof.
  intro H. unfold Sun7.calculate_sun_position. now rewrite H.
Qed.

Lemma calculate_moon_position_raised (e : Ephem) (now : Q)
    (th : Moon7.MoonTrackingThread) (msg : string) :
  moon_at e (Moon7.lat th) (Moon7.lon th) now = raised msg ->
  Moon7.calculate_moon_position e now th
  = ((0, 0),
     [track_error ("Moon Calculation Error: " ++ substring 0 30 msg ++ "...")]).
Proof.
  intro H. unfold Moon7.calculate_moon_position. now rewrite H.
Qed.

End FailingCalculation.

(** C8, as stated, fails in [telescope_7]: the thread keeps no
    position; a call that fails right after one that answered (45, 180)
    answers (0, 0). *)
Lemma C8_counterexample :
  let th := Sun7.init 40.7128 (-74.006) in
  let first := fst (Sun7.calculate_sun_position sample_ephem 1 th) in
  let second := fst (Sun7.calculate_sun_position sample_ephem 2 th) in
  fst first == 45 /\ snd first == 180
  /\ second = (0, 0)
  /\ ~ fst second == fst first.
Proof.
  split; [reflexivity|]. split; [reflexivity|]. split; [reflexivity|].
  intro H. vm_compute in H. discriminate.
Qed.

(** C8, amended.  A position calculation that raises does not pass the
    exception on, and reports it through its signal.  In [telescope_8]
    the call returns the data of the last loop iteration, which the
    thread keeps.  In [telescope_7] the Sun and the Moon call return the
    fixed pair (0, 0): no earlier position is kept there. *)
Theorem C8_failed_calculation
    (e : Ephem) (now : Q) (sun : Sun7.SunTrackingThread)
    (moon : Moon7.MoonTrackingThread) (msg : string)
    (cosd : Q -> Q) (r : Moon8.AstroResult) (th : Moon8.MoonCalculationThread) :
  sun_at e (Sun7.lat sun) (Sun7.lon sun) now = raised msg ->
  moon_at e (Moon7.lat moon) (Moon7.lon moon) now = raised msg ->
  Sun7.calculate_sun_position e now sun
  = ((0, 0), [track_error ("Calc Error: " ++ substring 0 25 msg ++ "...")])
  /\ Moon7.calculate_moon_position e now moon
     = ((0, 0),
        [track_error ("Moon Calculation Error: " ++ substring 0 30 msg ++ "...")])
  /\ Moon8.calculate_moon_position cosd (Moon8.astro_raised msg) th
     = (Moon8.current_moon_data th,
        [Moon8.status_updated ("Calculation error: " ++ msg)])
  /\ fst (Moon8.calculate_moon_position cosd (Moon8.astro_raised msg)
            (fst (Moon8.run_iteration cosd r th)))
     = fst (Moon8.calculate_moon_position cosd r th).
Proof.
  intros Hs Hm.
  split; [now apply calculate_sun_position_raised|].
  split; [now apply calculate_moon_position_raised|].
  split; [reflexivity|].
  unfold Moon8.run_iteration.
  destruct (Moon8.calculate_moon_position cosd r th) as [d outs]. reflexivity.
Qed.

Lemma C8_failed_calculation_witness :
  Sun7.calculate_sun_position sample_ephem 2 (Sun7.init 40.7128 (-74.006))
  = ((0, 0), [track_error "Calc Error: math domain error..."]).
Proof.
  refine (proj1 (C8_failed_calculation sample_ephem 2
                   (Sun7.init 40.7128 (-74.006)) (Moon7.init 40.7128 (-74.006))
                   "math domain error" (fun _ => 0) (Moon8.astro 10 20 90)
                   (Moon8.init 40.7128 (-74.006)) _ _));
    reflexivity.
Defined.

(** ** The position is a function of location and date *)



(** ** The solar interlock *)

Section Interlock.
Import Main7.

Variable e : Ephem.

Lemma interlock_consistent_frame (g g' : GUI) :
  sun_part g' = sun_part g -> interlock_consistent g -> interlock_consistent g'.
Proof.
  unfold sun_part, interlock_consistent. intros E H.
  injection E as E1 E2. now rewrite E1, E2.
Qed.

Lemma _slew_to_sun_position_sun_part (alt az : Q) (g : GUI) :
  sun_part (_slew_to_sun_position alt az g) = sun_part g.
Proof.
  unfold _slew_to_sun_position.
  destruct (negb (Sun7.filter_check (sun_widget g))); reflexivity.
Qed.

Lemma update_sun_position_sun_part (alt az : Q) (g : GUI) :
  sun_part (update_sun_position alt az g) = sun_part g.
Proof.
  unfold update_sun_position. now rewrite _slew_to_sun_position_sun_part.
Qed.

Lemma deliver_sun_sun_part (outs : list TrackOut) (g : GUI) :
  sun_part (deliver_sun outs g) = sun_part g.
Proof.
  revert g. induction outs as [|o outs IH]; intro g; [reflexivity|].
  unfold deliver_sun in *. simpl. rewrite IH.
  destruct o; [apply update_sun_position_sun_part | reflexivity].
Qed.

Lemma deliver_moon_sun_part (outs : list TrackOut) (g : GUI) :
  sun_part (deliver_moon outs g) = sun_part g.
Proof.
  revert g. induction outs as [|o outs IH]; intro g; [reflexivity|].
  unfold deliver_moon in *. simpl. rewrite IH.
  destruct o; reflexivity.
Qed.

Lemma slew_to_sun_position_sun_part (now : Q) (g : GUI) :
  sun_part (slew_to_sun_position e now g) = sun_part g.
Proof.
  unfold slew_to_sun_position.
  destruct (negb (Sun7.filter_checked (sun_widget g))); [reflexivity|].
  destruct (Sun7.calculate_sun_position e now (sun_thread g)) as [[alt az] errs].
  change (sun_part (update_sun_position alt az (deliver_sun errs g)) = sun_part g).
  rewrite update_sun_position_sun_part. apply deliver_sun_sun_part.
Qed.

Lemma sun_run_iteration_sun_part (now : Q) (g : GUI) :
  sun_part (sun_run_iteration e now g) = sun_part g.
Proof.
  apply deliver_sun_sun_part.
Qed.

Lemma slew_to_moon_position_sun_part (now : Q) (g : GUI) :
  sun_part (slew_to_moon_position e now g) = sun_part g.
Proof.
  unfold slew_to_moon_position.
  destruct (Moon7.calculate_moon_position e now (moon_thread g)) as [[alt az] errs].
  change (sun_part (deliver_moon errs g) = sun_part g).
  apply deliver_moon_sun_part.
Qed.

Lemma moon_run_iteration_sun_part (now : Q) (g : GUI) :
  sun_part (moon_run_iteration e now g) = sun_part g.
Proof.
  apply deliver_moon_sun_part.
Qed.

Lemma confirm_safety_consistent (b : bool) (g : GUI) :
  interlock_consistent g -> interlock_consistent (confirm_safety b g).
Proof.
  unfold interlock_consistent, confirm_safety, toggle_filter.
  destruct g as [al az mt st w tr]. destruct w as [fc fb se ae ab].
  destruct st as [r la lo at_ ui]. simpl. intros [H1 [H2 H3]].
  destruct b; simpl.
  - repeat split; auto.
  - destruct ab; simpl; repeat split; auto; discriminate.
Qed.

Lemma auto_track_changed_consistent (b : bool) (g : GUI) :
  interlock_consistent g -> interlock_consistent (auto_track_changed b g).
Proof.
  unfold interlock_consistent, auto_track_changed, toggle_auto_track.
  destruct g as [al az mt st w tr]. destruct w as [fc fb se ae ab].
  destruct st as [r la lo at_ ui]. simpl. intros [H1 [H2 H3]].
  destruct b, fc; simpl; repeat split; auto; try discriminate.
  destruct ab; [specialize (H3 eq_refl); discriminate | exact H1].
Qed.

Lemma exec_consistent (g : GUI) (o : Op) :
  interlock_consistent g -> interlock_consistent (exec e o g).
Proof.
  intro H. destruct o; simpl.
  - now apply confirm_safety_consistent.
  - now apply auto_track_changed_consistent.
  - apply (interlock_consistent_frame g); [apply slew_to_sun_position_sun_part | exact H].
  - apply (interlock_consistent_frame g); [apply sun_run_iteration_sun_part | exact H].
  - apply (interlock_consistent_frame g); [apply update_sun_position_sun_part | exact H].
  - apply (interlock_consistent_frame g); [reflexivity | exact H].
  - apply (interlock_consistent_frame g); [apply slew_to_moon_position_sun_part | exact H].
  - apply (interlock_consistent_frame g); [apply moon_run_iteration_sun_part | exact H].
  - apply (interlock_consistent_frame g); [reflexivity | exact H].
  - apply (interlock_consistent_frame g); [reflexivity | exact H].
Qed.

Lemma reachable_consistent (lat lon : Q) (ops : list Op) :
  interlock_consistent (run_ops e ops (init lat lon)).
Proof.
  unfold run_ops. apply fold_left_invariant.
  - intros s o. apply exec_consistent.
  - repeat split. discriminate.
Qed.

(** A refused Sun position changes nothing but the trace. *)
Lemma _slew_to_sun_position_refused (alt az : Q) (g : GUI) :
  Sun7.filter_check (sun_widget g) = false ->
  _slew_to_sun_position alt az g
  = emit [critical "SOLAR WARNING" "SOLAR FILTER REQUIRED! Aborting sun slew."] g.
Proof.
  intro H. unfold _slew_to_sun_position. now rewrite H.
Qed.

(** The targets an accepted slew leaves on the axes. *)
Lemma slew_to_targets (target event status : string) (alt az : Q) (g : GUI) :
  Altitude7.target_alt (altitude (slew_to target event status alt az g))
    == Py.max 0 (Py.min 90 alt)
  /\ Azimuth7.target_az (azimuth (slew_to target event status alt az g))
     == Py.mod_ az 360.
Proof.
  simpl. split.
  - apply py_clamp_idem. lra.
  - apply py_mod_idem. lra.
Qed.

Lemma slew_to_trace (target event status : string) (alt az : Q) (g : GUI) :
  trace (slew_to target event status alt az g)
  = trace g ++
    [ slider_set Alt (Py.int (Py.max 0 (Py.min 90 alt)));
      slider_set Az (Py.int (Py.mod_ az 360));
      db_log (Py.max 0 (Py.min 90 alt)) (Py.mod_ az 360) target event;
      status_bar status;
      ai_context (Altitude7.current_alt (altitude g))
                 (Azimuth7.current_az (azimuth g)) ].
Proof.
  simpl. rewrite <- !app_assoc. reflexivity.
Qed.

End Interlock.



(** C2, as stated, fails: revoking the confirmation switches
    the tracking off but does not stop the axes.  Tracking has aimed the
    altitude axis at the Sun (45 degrees); the filter box is unchecked;
    the next iteration of the altitude loop still drives the motor
    toward that target. *)
Lemma C2_counterexample :
  let g0 := Main7.run_ops sample_ephem
              [Main7.FilterChanged true; Main7.AutoTrackChanged true;
               Main7.SunThreadIteration 0]
              (Main7.init 40.7128 (-74.006)) in
  let g1 := Main7.confirm_safety false g0 in
  let g2 := Main7.exec sample_ephem (Main7.AltitudeOp (Altitude7.Tick drives)) g1 in
  Main7.sun_tracking g0 = true
  /\ Sun7.filter_check (Main7.sun_widget g1) = false
  /\ Main7.sun_tracking g1 = false
  /\ Altitude7.target_alt (Main7.altitude g1) == 45
  /\ snd (Altitude7.run_iteration drives (Main7.altitude g1))
     = [motor_forward (1 / 5); position_signal (Altitude7.current_alt (Main7.altitude g2))]
  /\ Altitude7.current_alt (Main7.altitude g1)
     < Altitude7.current_alt (Main7.altitude g2).
Proof.
  repeat split; vm_compute; reflexivity.
Qed.

(** C2, amended.  In every window the operations can produce, Sun
    tracking is on only under a confirmed filter, and a Sun position
    delivered under an unconfirmed filter leaves the axes as they are.
    Unchecking the filter box switches the tracking off in that very
    call.  From then on an iteration of the tracking loop does nothing,
    and a Sun position that was still on its way is refused by the main
    window, so no new Sun target reaches the axes while the filter is
    unconfirmed.  The axes themselves are not touched: they keep the
    targets they had. *)
Theorem C2_revoked_confirmation
    (e : Ephem) (lat lon : Q) (ops : list Main7.Op) (now alt az : Q) :
  let g := Main7.run_ops e ops (Main7.init lat lon) in
  let g' := Main7.confirm_safety false g in
  implb (Main7.sun_tracking g) (Sun7.filter_check (Main7.sun_widget g)) = true
  /\ (Sun7.filter_check (Main7.sun_widget g) = true
      \/ axes (Main7.update_sun_position alt az g) = axes g)
  /\ Main7.sun_tracking g' = false
  /\ Sun7.filter_check (Main7.sun_widget g') = false
  /\ axes g' = axes g
  /\ Main7.sun_run_iteration e now g' = g'
  /\ axes (Main7.update_sun_position alt az g') = axes g
  /\ Main7.sun_tracking (Main7.update_sun_position alt az g') = false.
Proof.
  intros g g'.
  destruct (reachable_consistent e lat lon ops) as [H1 [H2 H3]].
  fold g in H1, H2, H3.
  assert (Off : Main7.sun_tracking g' = false).
  { subst g'. unfold Main7.sun_tracking, Main7.confirm_safety, Main7.toggle_filter.
    simpl. destruct (Sun7.auto_track_btn_checked (Main7.sun_widget g)) eqn:B.
    - reflexivity.
    - simpl. exact H1. }
  assert (Fb : Sun7.filter_check (Main7.sun_widget g') = false).
  { subst g'. unfold Main7.confirm_safety, Main7.toggle_filter. simpl.
    destruct (Sun7.auto_track_btn_checked (Main7.sun_widget g)); reflexivity. }
  assert (Ax : axes g' = axes g).
  { subst g'. unfold Main7.confirm_safety, Main7.toggle_filter. simpl.
    destruct (Sun7.auto_track_btn_checked (Main7.sun_widget g)); reflexivity. }
  split.
  { unfold Main7.sun_tracking. rewrite H1.
    destruct (Sun7.auto_track_btn_checked (Main7.sun_widget g)); [|reflexivity].
    rewrite <- H2, H3; reflexivity. }
  split.
  { destruct (Sun7.filter_check (Main7.sun_widget g)) eqn:F; [now left | right].
    unfold Main7.update_sun_position.
    rewrite _slew_to_sun_position_refused by exact F. reflexivity. }
  split; [exact Off|]. split; [exact Fb|]. split; [exact Ax|].
  split.
  { unfold Main7.sun_run_iteration, Sun7.run_iteration.
    unfold Main7.sun_tracking in Off.
    rewrite Off. destruct (negb _); reflexivity. }
  unfold Main7.update_sun_position.
  rewrite _slew_to_sun_position_refused by exact Fb.
  split; [exact Ax | exact Off].
Qed.

(** ** Slewing to a computed position *)



(** * Further properties of the code *)

(** ** Compass names *)

Section Cardinal.



Lemma first_dir_ext (p q : Q) (rows : list (string * Q * Q)) :
  p == q -> Cardinal7.first_dir p rows = Cardinal7.first_dir q rows.
Proof.
  intro H. induction rows as [|[[name start] end_] rows IH]; [reflexivity|].
  simpl.
  assert (E1 : Qle_bool start p = Qle_bool start q) by (now rewrite H).
  assert (E2 : Py.ltb p end_ = Py.ltb q end_) by (now rewrite H).
  now rewrite E1, E2, IH.
Qed.




End Cardinal.


(** X2.  [degrees_to_cardinal] does not see whole turns: an angle and
    the angle plus any number of turns, forward or backward, get the
    same name. *)
Theorem X2_cardinal_periodic (degrees : Q) (turns : Z) :
  Cardinal7.degrees_to_cardinal (degrees + 360 * inject_Z turns)
  = Cardinal7.degrees_to_cardinal degrees.
Proof.
  unfold Cardinal7.degrees_to_cardinal. cbv zeta.
  rewrite (first_dir_ext _ (Py.mod_ degrees 360)); [reflexivity|].
  apply py_mod_shift. lra.
Qed.

(** ** The altitude loop *)

Section AltitudeLoop.

Variable th : Altitude7.AltitudeMotorThread.
Hypothesis alive : altitude_alive th.

Let c := Altitude7.current_alt th.
Let t := Altitude7.target_alt th.
Let s := Altitude7.speed th * 0.1.

Lemma py_clamp_above (lo hi x : Q) :
  lo <= hi -> hi <= x -> Py.max lo (Py.min hi x) == hi.
Proof.
  intros H1 H2.
  destruct (py_min_case hi x) as [[H3 ->] | [H3 ->]];
    [ destruct (py_max_case lo x) as [[H4 ->] | [H4 ->]]
    | destruct (py_max_case lo hi) as [[H4 ->] | [H4 ->]] ]; lra.
Qed.

(** Within the tolerance the loop stops the motor and changes nothing,
    whatever the driver would do. *)
Lemma altitude_iteration_idle (hw : Driver) :
  Qabs (t - c) < 0.1 -> Altitude7.run_iteration hw th = (th, [motor_stop]).
Proof.
  intro H. destruct alive as [M R].
  unfold Altitude7.run_iteration. rewrite M, R. cbn [negb]. cbv zeta.
  fold c t. apply py_ltb_spec in H. now rewrite H.
Qed.

Lemma altitude_tick_forward :
  0.1 <= t - c ->
  Altitude7.tick th
  = Altitude7.mkThread (Altitude7.running th) (Py.max 0 (Py.min 90 (c + s))) t
                       (Altitude7.speed th) (Altitude7.motor th).
Proof.
  intro H. destruct alive as [M R].
  unfold Altitude7.tick, Altitude7.run_iteration. rewrite M, R.
  cbn [negb]. cbv zeta. fold c t.
  assert (N : Py.ltb (Qabs (t - c)) 0.1 = false).
  { apply py_ltb_false. rewrite Qabs_pos; lra. }
  assert (P : Py.ltb 0 (t - c) = true) by (apply py_ltb_spec; lra).
  rewrite N, P. reflexivity.
Qed.

Lemma altitude_tick_backward :
  t - c <= -0.1 ->
  Altitude7.tick th
  = Altitude7.mkThread (Altitude7.running th) (Py.max 0 (Py.min 90 (c - s))) t
                       (Altitude7.speed th) (Altitude7.motor th).
Proof.
  intro H. destruct alive as [M R].
  unfold Altitude7.tick, Altitude7.run_iteration. rewrite M, R.
  cbn [negb]. cbv zeta. fold c t.
  assert (N : Py.ltb (Qabs (t - c)) 0.1 = false).
  { apply py_ltb_false. rewrite Qabs_neg; lra. }
  assert (P : Py.ltb 0 (t - c) = false) by (apply py_ltb_false; lra).
  rewrite N, P. reflexivity.
Qed.

(** An iteration outside the tolerance keeps the loop alive and the
    target and speed as they are. *)
Lemma altitude_tick_keeps :
  altitude_alive (Altitude7.tick th)
  /\ Altitude7.target_alt (Altitude7.tick th) = t
  /\ Altitude7.speed (Altitude7.tick th) = Altitude7.speed th.
Proof.
  destruct (Qlt_le_dec (Qabs (t - c)) 0.1) as [I | O].
  - unfold Altitude7.tick. rewrite (altitude_iteration_idle drives I).
    repeat split; apply alive.
  - destruct (Qlt_le_dec 0 (t - c)) as [F | B].
    + rewrite altitude_tick_forward by (rewrite Qabs_pos in O; lra).
      repeat split; apply alive.
    + rewrite altitude_tick_backward by (rewrite Qabs_neg in O; lra).
      repeat split; apply alive.
Qed.

(** With a step below twice the tolerance, an iteration outside the
    tolerance either arrives or shortens the way by a full step. *)
Lemma altitude_tick_progress :
  altitude_in_domain th -> 0 < s -> s < 0.2 -> 0.1 <= Qabs (t - c) ->
  altitude_in_domain (Altitude7.tick th)
  /\ (altitude_arrived (Altitude7.tick th)
      \/ Qabs (t - Altitude7.current_alt (Altitude7.tick th))
         <= Qabs (t - c) - s).
Proof.
  intros [[C0 C90] [T0 T90]] S0 S2 O. fold c in C0, C90. fold t in T0, T90.
  unfold altitude_arrived.
  destruct (Qlt_le_dec 0 (t - c)) as [F | B].
  - rewrite Qabs_pos in O by lra.
    rewrite altitude_tick_forward by lra.
    unfold altitude_in_domain.
    cbn [Altitude7.current_alt Altitude7.target_alt].
    pose proof (py_clamp_range 0 90 (c + s)) as Rg.
    split; [split; [apply Rg; lra | split; assumption]|].
    destruct (Qlt_le_dec 90 (c + s)) as [Hi | Lo].
    + left. rewrite (py_clamp_above 0 90 (c + s)) by lra.
      apply Qabs_Qlt_condition. lra.
    + rewrite (py_clamp_id 0 90 (c + s)) by lra.
      destruct (Qlt_le_dec t (c + s)) as [Ov | Un].
      * left. apply Qabs_Qlt_condition. lra.
      * right. rewrite !Qabs_pos by lra. lra.
  - rewrite Qabs_neg in O by lra.
    rewrite altitude_tick_backward by lra.
    unfold altitude_in_domain.
    cbn [Altitude7.current_alt Altitude7.target_alt].
    pose proof (py_clamp_range 0 90 (c - s)) as Rg.
    split; [split; [apply Rg; lra | split; assumption]|].
    destruct (Qlt_le_dec (c - s) 0) as [Lo | Hi].
    + left. rewrite (py_clamp_below 0 90 (c - s)) by lra.
      apply Qabs_Qlt_condition. lra.
    + rewrite (py_clamp_id 0 90 (c - s)) by lra.
      destruct (Qlt_le_dec (c - s) t) as [Ov | Un].
      * left. apply Qabs_Qlt_condition. lra.
      * right. rewrite !Qabs_neg by lra. lra.
Qed.

End AltitudeLoop.

Section AltitudeRuns.

Lemma altitude_ticks_succ (n : nat) (th : Altitude7.AltitudeMotorThread) :
  altitude_ticks (S n) th = altitude_ticks n (Altitude7.tick th).
Proof.
  unfold altitude_ticks. apply Nat.iter_succ_r.
Qed.

Lemma altitude_arrives_within (n : nat) :
  forall th : Altitude7.AltitudeMotorThread,
    altitude_alive th -> altitude_in_domain th ->
    0 < Altitude7.speed th * 0.1 -> Altitude7.speed th * 0.1 < 0.2 ->
    Qabs (Altitude7.target_alt th - Altitude7.current_alt th)
      <= inject_Z (Z.of_nat n) * (Altitude7.speed th * 0.1) ->
    exists k, (k <= n)%nat
              /\ altitude_alive (altitude_ticks k th)
              /\ altitude_arrived (altitude_ticks k th).
Proof.
  induction n as [|n IH]; intros th A D S0 S2 Hn.
  - exists 0%nat. split; [lia|]. split; [exact A|].
    unfold altitude_arrived. change (altitude_ticks 0 th) with th.
    change (inject_Z (Z.of_nat 0)) with 0 in Hn. lra.
  - destruct (Qlt_le_dec (Qabs (Altitude7.target_alt th - Altitude7.current_alt th))
                         0.1) as [I | O].
    + exists 0%nat. split; [lia|]. split; [exact A | exact I].
    + destruct (altitude_tick_keeps th A) as [A' [T' S']].
      destruct (altitude_tick_progress th A D S0 S2 O) as [D' [Arr | Less]].
      * exists 1%nat. split; [lia|]. split; [exact A' | exact Arr].
      * destruct (IH (Altitude7.tick th) A' D') as [k [Hk [Ak Rk]]].
        { now rewrite S'. }
        { now rewrite S'. }
        { rewrite S', T'.
          rewrite Nat2Z.inj_succ, <- Z.add_1_r, inject_Z_plus in Hn.
          change (inject_Z 1) with 1 in Hn. lra. }
        exists (S k). split; [lia|]. rewrite altitude_ticks_succ.
        split; assumption.
Qed.

(** On the two positions of an overshoot cycle the loop is outside the
    tolerance, and an iteration leads from each to the other. *)
Lemma altitude_cycle_step (c t s : Q) (th : Altitude7.AltitudeMotorThread) :
  0 <= c -> c + s <= 90 -> c + 0.1 <= t -> t <= c + s - 0.1 ->
  altitude_alive th -> Altitude7.target_alt th = t ->
  Altitude7.speed th * 0.1 == s ->
  (Altitude7.current_alt th == c \/ Altitude7.current_alt th == c + s) ->
  ~ altitude_arrived th
  /\ altitude_alive (Altitude7.tick th)
  /\ Altitude7.target_alt (Altitude7.tick th) = t
  /\ Altitude7.speed (Altitude7.tick th) * 0.1 == s
  /\ (Altitude7.current_alt (Altitude7.tick th) == c
      \/ Altitude7.current_alt (Altitude7.tick th) == c + s).
Proof.
  intros C0 C90 Lo Hi A T S [E | E].
  - split.
    { unfold altitude_arrived. rewrite T, E. intro H.
      apply Qabs_Qlt_condition in H. lra. }
    destruct (altitude_tick_keeps th A) as [A' [T' S']].
    split; [exact A'|]. split; [now rewrite T'|]. split; [now rewrite S'|].
    right. rewrite altitude_tick_forward by (try exact A; rewrite T, E; lra).
    cbn [Altitude7.current_alt]. rewrite py_clamp_id by lra. lra.
  - split.
    { unfold altitude_arrived. rewrite T, E. intro H.
      apply Qabs_Qlt_condition in H. lra. }
    destruct (altitude_tick_keeps th A) as [A' [T' S']].
    split; [exact A'|]. split; [now rewrite T'|]. split; [now rewrite S'|].
    left. rewrite altitude_tick_backward by (try exact A; rewrite T, E; lra).
    cbn [Altitude7.current_alt]. rewrite py_clamp_id by lra. lra.
Qed.

Lemma altitude_speed_range (ops : list Altitude7.Op) :
  0.1 <= Altitude7.speed (Altitude7.run_ops ops Altitude7.init) <= 5.
Proof.
  unfold Altitude7.run_ops.
  apply (fold_left_invariant (fun th => 0.1 <= Altitude7.speed th <= 5)).
  - intros th o H. destruct o; simpl; try exact H.
    + apply py_clamp_range. lra.
    + unfold Altitude7.run_iteration.
      destruct (negb (Altitude7.motor th)); [exact H|].
      destruct (negb (Altitude7.running th)); [exact H|].
      cbv zeta. destruct (Py.ltb (Qabs _) 0.1); [exact H|].
      destruct hw; [|exact H].
      destruct (Py.ltb 0 _); exact H.
  - simpl. lra.
Qed.

Lemma altitude_iteration_rate (hw : Driver) (th : Altitude7.AltitudeMotorThread) :
  0 <= Altitude7.current_alt th <= 90 -> 0 <= Altitude7.speed th ->
  Qabs (Altitude7.current_alt (fst (Altitude7.run_iteration hw th))
        - Altitude7.current_alt th)
  <= Altitude7.speed th * 0.1.
Proof.
  intros C S.
  assert (Z : forall x, Qabs (x - x) <= Altitude7.speed th * 0.1).
  { intro x. apply Qabs_Qle_condition. lra. }
  unfold Altitude7.run_iteration.
  destruct (negb (Altitude7.motor th)); [apply Z|].
  destruct (negb (Altitude7.running th)); [apply Z|].
  cbv zeta. destruct (Py.ltb (Qabs _) 0.1); [apply Z|].
  destruct hw; [|apply Z].
  destruct (Py.ltb 0 _); cbn [fst Altitude7.current_alt].
  - set (x := Altitude7.current_alt th + Altitude7.speed th * 0.1).
    apply Qabs_Qle_condition.
    destruct (Qlt_le_dec 90 x) as [Hi | Lo].
    + rewrite (py_clamp_above 0 90 x) by lra. subst x. lra.
    + rewrite (py_clamp_id 0 90 x) by (subst x; lra). subst x. lra.
  - set (x := Altitude7.current_alt th - Altitude7.speed th * 0.1).
    apply Qabs_Qle_condition.
    destruct (Qlt_le_dec x 0) as [Lo | Hi].
    + rewrite (py_clamp_below 0 90 x) by lra. subst x. lra.
    + rewrite (py_clamp_id 0 90 x) by (subst x; lra). subst x. lra.
Qed.

End AltitudeRuns.

(** X3.  The stop button of the altitude widget halts the axis: with the
    position inside [[0, 90]], after [stop_motor] the next loop
    iteration stops the motor and moves nothing, whatever the driver
    does, and pressing stop again changes nothing. *)
Theorem X3_altitude_stop_halts (th : Altitude7.AltitudeMotorThread) (hw : Driver) :
  altitude_alive th ->
  0 <= Altitude7.current_alt th <= 90 ->
  let s := Altitude7.stop_motor th in
  Altitude7.run_iteration hw s = (s, [motor_stop])
  /\ Altitude7.stop_motor s = s.
Proof.
  intros A C s. split; [|reflexivity].
  apply altitude_iteration_idle; [exact A|].
  subst s. cbn [Altitude7.stop_motor Altitude7.set_target
                Altitude7.target_alt Altitude7.current_alt].
  rewrite (py_clamp_id 0 90 _ C).
  apply Qabs_Qlt_condition. lra.
Qed.

Lemma X3_altitude_stop_halts_witness :
  let s := Altitude7.stop_motor (Altitude7.mkThread true 30 60 1 true) in
  Altitude7.run_iteration drives s = (s, [motor_stop])
  /\ Altitude7.stop_motor s = s.
Proof.
  apply (X3_altitude_stop_halts (Altitude7.mkThread true 30 60 1 true) drives).
  - split; reflexivity.
  - split; vm_compute; discriminate.
Defined.

(** X4.  In every state the operations can produce from a fresh
    altitude thread the speed lies in [[0.1, 5]], and one loop iteration
    moves the position by at most a tenth of the speed, so by at most
    half a degree. *)
Theorem X4_altitude_rate_bound (ops : list Altitude7.Op) (hw : Driver) :
  let th := Altitude7.run_ops ops Altitude7.init in
  let th' := fst (Altitude7.run_iteration hw th) in
  0.1 <= Altitude7.speed th <= 5
  /\ Qabs (Altitude7.current_alt th' - Altitude7.current_alt th)
     <= Altitude7.speed th * 0.1
  /\ Qabs (Altitude7.current_alt th' - Altitude7.current_alt th) <= 0.5.
Proof.
  intros th th'.
  pose proof (altitude_speed_range ops) as S. fold th in S.
  assert (D : altitude_in_domain th).
  { subst th. unfold Altitude7.run_ops. apply fold_left_invariant.
    - intros x o. apply altitude_exec_domain.
    - split; simpl; lra. }
  destruct D as [C _].
  assert (R : Qabs (Altitude7.current_alt th' - Altitude7.current_alt th)
              <= Altitude7.speed th * 0.1).
  { subst th'. apply altitude_iteration_rate; [exact C | lra]. }
  split; [exact S|]. split; [exact R | lra].
Qed.

(** X5.  With a speed below 2 (a step below twice the tolerance) the
    altitude loop reaches its target: if the distance is at most [n]
    steps, then after at most [n] iterations the axis is within 0.1
    degrees of the target, and from there on an iteration only stops
    the motor. *)
Theorem X5_altitude_arrives (th : Altitude7.AltitudeMotorThread) (n : nat) :
  altitude_alive th ->
  altitude_in_domain th ->
  0 < Altitude7.speed th -> Altitude7.speed th < 2 ->
  Qabs (Altitude7.target_alt th - Altitude7.current_alt th)
    <= inject_Z (Z.of_nat n) * (Altitude7.speed th * 0.1) ->
  exists k, (k <= n)%nat
            /\ altitude_arrived (altitude_ticks k th)
            /\ Altitude7.run_iteration drives (altitude_ticks k th)
               = (altitude_ticks k th, [motor_stop]).
Proof.
  intros A D S0 S2 Hn.
  destruct (altitude_arrives_within n th A D) as [k [Hk [Ak Rk]]];
    [lra | lra | exact Hn |].
  exists k. split; [exact Hk|]. split; [exact Rk|].
  apply altitude_iteration_idle; [exact Ak | exact Rk].
Qed.

Lemma X5_altitude_arrives_witness :
  exists k, (k <= 50)%nat
            /\ altitude_arrived
                 (altitude_ticks k (Altitude7.mkThread true 40 45 1 true))
            /\ Altitude7.run_iteration drives
                 (altitude_ticks k (Altitude7.mkThread true 40 45 1 true))
               = (altitude_ticks k (Altitude7.mkThread true 40 45 1 true),
                  [motor_stop]).
Proof.
  apply (X5_altitude_arrives (Altitude7.mkThread true 40 45 1 true) 50).
  - split; reflexivity.
  - repeat split; vm_compute; discriminate.
  - vm_compute. reflexivity.
  - vm_compute. reflexivity.
  - vm_compute. discriminate.
Defined.

(** X6.  With a step of 0.2 degrees or more (a speed of 2 or more, which
    [set_speed] accepts) the altitude loop can miss its target for
    ever: when the target lies at least 0.1 beyond the position and at
    least 0.1 short of the position plus one step, every iteration
    jumps over it, the axis alternates between the two positions and is
    never within the tolerance. *)
Theorem X6_altitude_overshoot_cycle (th : Altitude7.AltitudeMotorThread) (n : nat) :
  altitude_alive th ->
  0 <= Altitude7.current_alt th ->
  Altitude7.current_alt th + Altitude7.speed th * 0.1 <= 90 ->
  Altitude7.current_alt th + 0.1 <= Altitude7.target_alt th ->
  Altitude7.target_alt th
    <= Altitude7.current_alt th + Altitude7.speed th * 0.1 - 0.1 ->
  ~ altitude_arrived (altitude_ticks n th)
  /\ (Altitude7.current_alt (altitude_ticks n th) == Altitude7.current_alt th
      \/ Altitude7.current_alt (altitude_ticks n th)
         == Altitude7.current_alt th + Altitude7.speed th * 0.1).
Proof.
  intros A C0 C90 Lo Hi.
  set (c := Altitude7.current_alt th) in *.
  set (t := Altitude7.target_alt th) in *.
  set (s := Altitude7.speed th * 0.1) in *.
  assert (I : altitude_alive (altitude_ticks n th)
              /\ Altitude7.target_alt (altitude_ticks n th) = t
              /\ Altitude7.speed (altitude_ticks n th) * 0.1 == s
              /\ (Altitude7.current_alt (altitude_ticks n th) == c
                  \/ Altitude7.current_alt (altitude_ticks n th) == c + s)).
  { induction n as [|n IH].
    - repeat split; try apply A. left. reflexivity.
    - destruct IH as [A' [T' [S' E']]].
      destruct (altitude_cycle_step c t s _ C0 C90 Lo Hi A' T' S' E')
        as [_ Step].
      exact Step. }
  destruct I as [A' [T' [S' E']]].
  destruct (altitude_cycle_step c t s _ C0 C90 Lo Hi A' T' S' E') as [N _].
  split; [exact N | exact E'].
Qed.

Lemma X6_altitude_overshoot_cycle_witness :
  ~ altitude_arrived
      (altitude_ticks 1000 (Altitude7.mkThread true (9 # 10) 1 3 true)).
Proof.
  refine (proj1 (X6_altitude_overshoot_cycle
                   (Altitude7.mkThread true (9 # 10) 1 3 true) 1000 _ _ _ _ _)).
  - split; reflexivity.
  - vm_compute. discriminate.
  - vm_compute. discriminate.
  - vm_compute. discriminate.
  - vm_compute. discriminate.
Defined.

(** ** The azimuth loop of [telescope_7] *)

Section AzimuthLoop.

(** The difference, as a number: the plain difference up to one turn,
    and at most half a turn. *)
Lemma shortest_diff_value (c t : Q) :
  0 <= c < 360 -> 0 <= t < 360 ->
  -180 <= Azimuth7.shortest_diff c t <= 180
  /\ (Azimuth7.shortest_diff c t == t - c
      \/ Azimuth7.shortest_diff c t == t - c - 360
      \/ Azimuth7.shortest_diff c t == t - c + 360).
Proof.
  intros Hc Ht.
  destruct (shortest_diff_cases c t) as [[G [S ->]] | [[G [S ->]] | [G ->]]].
  - pose proof (Qabs_gt_pos _ G S). split; [lra|]. right. left. reflexivity.
  - pose proof (Qabs_gt_neg _ G S). split; [lra|]. right. right. reflexivity.
  - apply Qabs_Qle_condition in G. split; [lra|]. left. reflexivity.
Qed.

(** A number that is the plain difference up to whole turns and lies
    strictly inside half a turn is the difference. *)
Lemma shortest_diff_unique (c t e : Q) :
  0 <= c < 360 -> 0 <= t < 360 -> -180 < e < 180 ->
  (e == t - c \/ e == t - c - 360 \/ e == t - c + 360) ->
  Azimuth7.shortest_diff c t == e.
Proof.
  intros Hc Ht He H.
  destruct (shortest_diff_cases c t) as [[G [S ->]] | [[G [S ->]] | [G ->]]].
  - pose proof (Qabs_gt_pos _ G S). destruct H as [H | [H | H]]; lra.
  - pose proof (Qabs_gt_neg _ G S). destruct H as [H | [H | H]]; lra.
  - apply Qabs_Qle_condition in G. destruct H as [H | [H | H]]; lra.
Qed.

(** [x % 360] for [x] within one turn of the domain. *)
Lemma py_mod_near (x : Q) :
  -360 <= x < 720 ->
  0 <= Py.mod_ x 360 < 360
  /\ (Py.mod_ x 360 == x \/ Py.mod_ x 360 == x - 360 \/ Py.mod_ x 360 == x + 360).
Proof.
  intros [Lo Hi]. split; [apply py_mod_range; lra|].
  destruct (Qlt_le_dec x 0) as [N | P].
  - right. right. rewrite (py_mod_unique x 360 (-1)); [simpl; ring | lra |].
    change (inject_Z (-1)) with (-1). lra.
  - destruct (Qlt_le_dec x 360) as [S | L].
    + left. apply py_mod_small. lra.
    + right. left. rewrite (py_mod_unique x 360 1); [simpl; ring | lra |].
      change (inject_Z 1) with 1. lra.
Qed.

Variable th : Azimuth7.AzimuthMotorThread.
Hypothesis alive : azimuth_alive th.

Let c := Azimuth7.current_az th.
Let t := Azimuth7.target_az th.
Let s := Azimuth7.speed th * 0.1.
Let d := Azimuth7.shortest_diff c t.

Lemma azimuth_iteration_idle (hw : Driver) :
  Qabs d < 0.1 -> Azimuth7.run_iteration hw th = (th, [motor_stop]).
Proof.
  intro H. destruct alive as [M R].
  unfold Azimuth7.run_iteration. rewrite M, R. cbn [negb]. cbv zeta.
  fold c t. fold d. apply py_ltb_spec in H. now rewrite H.
Qed.

Lemma azimuth_iteration_forward :
  0.1 <= d ->
  Azimuth7.run_iteration drives th
  = (Azimuth7.mkThread (Azimuth7.running th) (Py.mod_ (c + s) 360) t
                       (Azimuth7.speed th) (Azimuth7.motor th),
     [motor_forward (Azimuth7.speed th / 5);
      position_signal (Py.mod_ (c + s) 360)]).
Proof.
  intro H. destruct alive as [M R].
  unfold Azimuth7.run_iteration. rewrite M, R.
  cbn [negb]. cbv zeta. fold c t. fold d.
  assert (N : Py.ltb (Qabs d) 0.1 = false).
  { apply py_ltb_false. rewrite Qabs_pos; lra. }
  assert (P : Py.ltb 0 d = true) by (apply py_ltb_spec; lra).
  rewrite N, P. reflexivity.
Qed.

Lemma azimuth_iteration_backward :
  d <= -0.1 ->
  Azimuth7.run_iteration drives th
  = (Azimuth7.mkThread (Azimuth7.running th) (Py.mod_ (c - s) 360) t
                       (Azimuth7.speed th) (Azimuth7.motor th),
     [motor_backward (Azimuth7.speed th / 5);
      position_signal (Py.mod_ (c - s) 360)]).
Proof.
  intro H. destruct alive as [M R].
  unfold Azimuth7.run_iteration. rewrite M, R.
  cbn [negb]. cbv zeta. fold c t. fold d.
  assert (N : Py.ltb (Qabs d) 0.1 = false).
  { apply py_ltb_false. rewrite Qabs_neg; lra. }
  assert (P : Py.ltb 0 d = false) by (apply py_ltb_false; lra).
  rewrite N, P. reflexivity.
Qed.

Lemma azimuth_tick_keeps :
  azimuth_alive (Azimuth7.tick th)
  /\ Azimuth7.target_az (Azimuth7.tick th) = t
  /\ Azimuth7.speed (Azimuth7.tick th) = Azimuth7.speed th.
Proof.
  unfold Azimuth7.tick.
  destruct (Qlt_le_dec (Qabs d) 0.1) as [I | O].
  - rewrite (azimuth_iteration_idle drives I). repeat split; apply alive.
  - destruct (Qlt_le_dec 0 d) as [F | B].
    + rewrite azimuth_iteration_forward by (rewrite Qabs_pos in O; lra).
      repeat split; apply alive.
    + rewrite azimuth_iteration_backward by (rewrite Qabs_neg in O; lra).
      repeat split; apply alive.
Qed.

(** Outside the tolerance an iteration with a step of at most 180
    shortens the way left by exactly one step, also across the wrap. *)
Lemma azimuth_tick_way :
  azimuth_in_domain th -> 0 < s -> s <= 180 -> 0.1 <= Qabs d ->
  azimuth_in_domain (Azimuth7.tick th)
  /\ ((0 < d /\ azimuth_way (Azimuth7.tick th) == d - s)
      \/ (d < 0 /\ azimuth_way (Azimuth7.tick th) == d + s)).
Proof.
  intros [Hc Ht] S0 S1 O. fold c in Hc. fold t in Ht.
  destruct (shortest_diff_value c t Hc Ht) as [Dr Dv]. fold d in Dr, Dv.
  unfold azimuth_way, azimuth_in_domain, Azimuth7.tick.
  destruct (Qlt_le_dec 0 d) as [F | B].
  - rewrite Qabs_pos in O by lra.
    rewrite azimuth_iteration_forward by lra.
    cbn [fst Azimuth7.current_az Azimuth7.target_az]. fold t.
    destruct (py_mod_near (c + s)) as [Mr Mv]; [lra|].
    split; [split; assumption|]. left. split; [exact F|].
    apply shortest_diff_unique; [exact Mr | exact Ht | lra |].
    destruct Dv as [Dv | [Dv | Dv]]; destruct Mv as [Mv | [Mv | Mv]];
      first [ left; lra | right; left; lra | right; right; lra | exfalso; lra ].
  - rewrite Qabs_neg in O by lra.
    rewrite azimuth_iteration_backward by lra.
    cbn [fst Azimuth7.current_az Azimuth7.target_az]. fold t.
    destruct (py_mod_near (c - s)) as [Mr Mv]; [lra|].
    split; [split; assumption|]. right. split; [lra|].
    apply shortest_diff_unique; [exact Mr | exact Ht | lra |].
    destruct Dv as [Dv | [Dv | Dv]]; destruct Mv as [Mv | [Mv | Mv]];
      first [ left; lra | right; left; lra | right; right; lra | exfalso; lra ].
Qed.

End AzimuthLoop.

Section AzimuthRuns.

Lemma azimuth_ticks_succ (n : nat) (th : Azimuth7.AzimuthMotorThread) :
  Azimuth7.ticks (S n) th = Azimuth7.ticks n (Azimuth7.tick th).
Proof.
  unfold Azimuth7.ticks. apply Nat.iter_succ_r.
Qed.

Lemma azimuth_arrives_within (n : nat) :
  forall th : Azimuth7.AzimuthMotorThread,
    azimuth_alive th -> azimuth_in_domain th ->
    0 < Azimuth7.speed th * 0.1 -> Azimuth7.speed th * 0.1 < 0.2 ->
    Qabs (azimuth_way th) <= inject_Z (Z.of_nat n) * (Azimuth7.speed th * 0.1) ->
    exists k, (k <= n)%nat
              /\ azimuth_alive (Azimuth7.ticks k th)
              /\ azimuth_arrived (Azimuth7.ticks k th).
Proof.
  induction n as [|n IH]; intros th A D S0 S2 Hn.
  - exists 0%nat. split; [lia|]. split; [exact A|].
    unfold azimuth_arrived. change (Azimuth7.ticks 0 th) with th.
    change (inject_Z (Z.of_nat 0)) with 0 in Hn. lra.
  - destruct (Qlt_le_dec (Qabs (azimuth_way th)) 0.1) as [I | O].
    + exists 0%nat. split; [lia|]. split; [exact A | exact I].
    + destruct (azimuth_tick_keeps th A) as [A' [T' S']].
      destruct (azimuth_tick_way th A D S0) as [D' W]; [lra | exact O |].
      fold (azimuth_way th) in W.
      rewrite Nat2Z.inj_succ, <- Z.add_1_r, inject_Z_plus in Hn.
      change (inject_Z 1) with 1 in Hn.
      assert (Step : azimuth_arrived (Azimuth7.tick th)
                     \/ Qabs (azimuth_way (Azimuth7.tick th))
                        <= Qabs (azimuth_way th) - Azimuth7.speed th * 0.1).
      { unfold azimuth_arrived.
        destruct W as [[Pos ->] | [Neg ->]].
        - rewrite (Qabs_pos (azimuth_way th)) in * by lra.
          destruct (Qlt_le_dec (azimuth_way th) (Azimuth7.speed th * 0.1)).
          + left. apply Qabs_Qlt_condition. lra.
          + right. rewrite Qabs_pos by lra. lra.
        - rewrite (Qabs_neg (azimuth_way th)) in * by lra.
          destruct (Qlt_le_dec (- azimuth_way th) (Azimuth7.speed th * 0.1)).
          + left. apply Qabs_Qlt_condition. lra.
          + right. rewrite Qabs_neg by lra. lra. }
      destruct Step as [Arr | Less].
      * exists 1%nat. split; [lia|]. split; [exact A' | exact Arr].
      * destruct (IH (Azimuth7.tick th) A' D') as [k [Hk [Ak Rk]]].
        { now rewrite S'. }
        { now rewrite S'. }
        { rewrite S'. lra. }
        exists (S k). split; [lia|]. rewrite azimuth_ticks_succ.
        split; assumption.
Qed.

End AzimuthRuns.

(** X7.  The buttons of the azimuth widget of [telescope_7].  With the
    position inside [[0, 360)]: after [stop_motor] the next loop
    iteration stops the motor and moves nothing; after [move_right] the
    way to the new target is exactly +10 degrees and the loop drives
    forward, after [move_left] it is exactly -10 degrees and the loop
    drives backward, also when the step crosses north. *)
Theorem X7_azimuth_buttons (th : Azimuth7.AzimuthMotorThread) (hw : Driver) :
  azimuth_alive th ->
  0 <= Azimuth7.current_az th < 360 ->
  Azimuth7.run_iteration hw (Azimuth7.stop_motor th)
  = (Azimuth7.stop_motor th, [motor_stop])
  /\ azimuth_way (Azimuth7.move_right th) == 10
  /\ azimuth_way (Azimuth7.move_left th) == -10
  /\ hd_error (snd (Azimuth7.run_iteration drives (Azimuth7.move_right th)))
     = Some (motor_forward (Azimuth7.speed th / 5))
  /\ hd_error (snd (Azimuth7.run_iteration drives (Azimuth7.move_left th)))
     = Some (motor_backward (Azimuth7.speed th / 5)).
Proof.
  intros A C.
  assert (Rt : 0 <= Py.mod_ (Azimuth7.current_az th + 10) 360 < 360
               /\ 0 <= Py.mod_ (Azimuth7.current_az th - 10) 360 < 360
               /\ 0 <= Py.mod_ (Azimuth7.current_az th) 360 < 360).
  { repeat split; apply py_mod_range; lra. }
  destruct Rt as [R1 [R2 R3]].
  assert (W0 : azimuth_way (Azimuth7.stop_motor th) == 0).
  { unfold azimuth_way. cbn [Azimuth7.stop_motor Azimuth7.set_target
                              Azimuth7.current_az Azimuth7.target_az].
    apply shortest_diff_unique; [exact C | exact R3 | lra |].
    left. rewrite py_mod_small by exact C. ring. }
  assert (W1 : azimuth_way (Azimuth7.move_right th) == 10).
  { unfold azimuth_way. cbn [Azimuth7.move_right Azimuth7.set_target
                              Azimuth7.current_az Azimuth7.target_az].
    apply shortest_diff_unique; [exact C | exact R1 | lra |].
    destruct (py_mod_near (Azimuth7.current_az th + 10)) as [_ [M | [M | M]]];
      [lra | left; lra | right; right; lra | exfalso; lra]. }
  assert (W2 : azimuth_way (Azimuth7.move_left th) == -10).
  { unfold azimuth_way. cbn [Azimuth7.move_left Azimuth7.set_target
                              Azimuth7.current_az Azimuth7.target_az].
    apply shortest_diff_unique; [exact C | exact R2 | lra |].
    destruct (py_mod_near (Azimuth7.current_az th - 10)) as [_ [M | [M | M]]];
      [lra | left; lra | exfalso; lra | right; left; lra]. }
  split.
  { apply azimuth_iteration_idle; [exact A|].
    fold (azimuth_way (Azimuth7.stop_motor th)). rewrite W0.
    reflexivity. }
  split; [exact W1|]. split; [exact W2|]. split.
  - rewrite azimuth_iteration_forward; [reflexivity | exact A |].
    fold (azimuth_way (Azimuth7.move_right th)). lra.
  - rewrite azimuth_iteration_backward; [reflexivity | exact A |].
    fold (azimuth_way (Azimuth7.move_left th)). lra.
Qed.

Lemma X7_azimuth_buttons_witness :
  azimuth_way (Azimuth7.move_right (Azimuth7.mkThread true 355 100 2 true)) == 10.
Proof.
  refine (proj1 (proj2 (X7_azimuth_buttons
                          (Azimuth7.mkThread true 355 100 2 true) drives _ _))).
  - split; reflexivity.
  - split; vm_compute; [discriminate | reflexivity].
Defined.

(** X8.  With a speed below 2 the azimuth loop of [telescope_7] reaches
    its target the shorter way round, also through the 360/0 wrap: an
    iteration outside the tolerance shortens the way left by exactly one
    step, so a way of at most [n] steps is covered in at most [n]
    iterations, after which an iteration only stops the motor. *)
Theorem X8_azimuth_arrives (th : Azimuth7.AzimuthMotorThread) (n : nat) :
  azimuth_alive th ->
  azimuth_in_domain th ->
  0 < Azimuth7.speed th -> Azimuth7.speed th < 2 ->
  Qabs (azimuth_way th) <= inject_Z (Z.of_nat n) * (Azimuth7.speed th * 0.1) ->
  exists k, (k <= n)%nat
            /\ azimuth_arrived (Azimuth7.ticks k th)
            /\ Azimuth7.run_iteration drives (Azimuth7.ticks k th)
               = (Azimuth7.ticks k th, [motor_stop]).
Proof.
  intros A D S0 S2 Hn.
  destruct (azimuth_arrives_within n th A D) as [k [Hk [Ak Rk]]];
    [lra | lra | exact Hn |].
  exists k. split; [exact Hk|]. split; [exact Rk|].
  apply azimuth_iteration_idle; [exact Ak | exact Rk].
Qed.

Lemma X8_azimuth_arrives_witness :
  exists k, (k <= 200)%nat
            /\ azimuth_arrived (Azimuth7.ticks k at_350_to_10)
            /\ Azimuth7.run_iteration drives (Azimuth7.ticks k at_350_to_10)
               = (Azimuth7.ticks k at_350_to_10, [motor_stop]).
Proof.
  apply (X8_azimuth_arrives at_350_to_10 200).
  - split; reflexivity.
  - repeat split; vm_compute; try discriminate; reflexivity.
  - vm_compute. reflexivity.
  - vm_compute. reflexivity.
  - vm_compute. discriminate.
Defined.

(** ** The azimuth loop of [telescope_8] *)

(** X9.  [stop_motors], the emergency stop of [telescope_8], stops the
    motor once and changes neither target nor position: while the loop
    runs with a motor and the axis is not at its target, the very next
    iteration drives the motor again, in the direction of the target. *)
Theorem X9_stop_motors_resumes (th : Azimuth8.AzimuthThread) :
  Azimuth8.running th = true ->
  Azimuth8.motor th = true ->
  ~ Azimuth8.current_position th == inject_Z (Azimuth8.target_position th) ->
  let th' := fst (Azimuth8.stop_motors th) in
  th' = th
  /\ snd (Azimuth8.stop_motors th) = [Azimuth8.stop_; Azimuth8.status_stopped]
  /\ hd_error (snd (Azimuth8.run_iteration drives th'))
     = Some (if Py.ltb 0 (Azimuth8.shortest_diff
                            (Azimuth8.current_position th)
                            (inject_Z (Azimuth8.target_position th)))
             then Azimuth8.forward else Azimuth8.backward).
Proof.
  intros R M N th'. subst th'. cbn [fst Azimuth8.stop_motors snd].
  split; [reflexivity|]. split; [now rewrite M|].
  unfold Azimuth8.run_iteration. cbv zeta. rewrite R, M. cbn [negb andb].
  assert (E : Qeq_bool (Azimuth8.current_position th)
                       (inject_Z (Azimuth8.target_position th)) = false).
  { destruct (Qeq_bool _ _) eqn:Q; [|reflexivity].
    apply Qeq_bool_iff in Q. contradiction. }
  rewrite E. cbn [negb].
  destruct (Py.ltb 0 _); destruct (Py.ltb (Qabs _) 0.2); reflexivity.
Qed.

Lemma X9_stop_motors_resumes_witness :
  hd_error (snd (Azimuth8.run_iteration drives
                   (fst (Azimuth8.stop_motors (Azimuth8.mkThread true 90 10 50 true)))))
  = Some Azimuth8.forward.
Proof.
  refine (proj2 (proj2 (X9_stop_motors_resumes
                          (Azimuth8.mkThread true 90 10 50 true) _ _ _))).
  - reflexivity.
  - reflexivity.
  - intro H. vm_compute in H. discriminate.
Defined.

(** ** More on the phase names *)

Section PhaseTables.

(** [min_by] answers an element of the candidates whose key no other
    candidate undercuts. *)
Lemma min_by_minimal {A : Type} (key : A -> Q) (xs : list A) :
  forall best : A,
    let r := Moon8.min_by key best xs in
    (r = best \/ In r xs)
    /\ key r <= key best
    /\ (forall x, In x xs -> key r <= key x).
Proof.
  induction xs as [|x xs IH]; intro best; cbn [Moon8.min_by].
  - split; [now left|]. split; [lra|]. intros x [].
  - destruct (py_ltb_reflect (key x) (key best)) as [L | L].
    + destruct (IH x) as [M [K F]]. cbv zeta in M, K, F.
      split; [right; destruct M as [-> | M]; [now left | now right]|].
      split; [lra|].
      intros y [<- | Hy]; [exact K | now apply F].
    + destruct (IH best) as [M [K F]]. cbv zeta in M, K, F.
      split; [destruct M as [M | M]; [now left | right; now right]|].
      split; [exact K|].
      intros y [<- | Hy]; [lra | now apply F].
Qed.

Lemma get_moon_phase_nearest (phase : Q) :
  let r := Moon8.get_moon_phase phase in
  In r Moon8.MOON_PHASES
  /\ (forall x, In x Moon8.MOON_PHASES ->
                Qabs (snd r - Py.mod_ phase 1) <= Qabs (snd x - Py.mod_ phase 1)).
Proof.
  unfold Moon8.get_moon_phase. cbv zeta.
  set (key := fun x : PhaseName * Q => Qabs (snd x - Py.mod_ phase 1)).
  destruct (min_by_minimal key (tl Moon8.MOON_PHASES)
                           (hd (New_Moon, 0) Moon8.MOON_PHASES)) as [M [K F]].
  cbv zeta in M, K, F.
  split.
  - destruct M as [-> | M]; [now left | now right].
  - intros x [<- | Hx]; [exact K | now apply F].
Qed.

End PhaseTables.

(** One line of a table of names: the name differs from another, or is
    a given one exactly on a given range. *)
Ltac table_line :=
  match goal with
  | |- _ <> _ => discriminate
  | |- _ <-> _ =>
      split;
      [ let H := fresh in
        intro H; first [ discriminate H | split; lra | lra ]
      | let H := fresh in
        intro H;
        first [ reflexivity | exfalso; first [ destruct H; lra | lra ] ] ]
  | |- _ -> _ =>
      let H := fresh in intro H; first [ reflexivity | exfalso; lra ]
  end.

Ltac table := repeat (match goal with |- _ /\ _ => split end); table_line.

(** X10.  [calculate_moon_phase] of [telescope] never answers "Waxing
    Gibbous", "First Quarter" or "Last Quarter": every illumination from
    2 to below 98 percent gets a waning name, "Waxing Crescent" is
    answered only strictly between 0 and 2 percent, and "New Moon" only
    at 0 or below. *)
Theorem X10_phase_table (illumination : Q) :
  let name := Moon1.calculate_moon_phase illumination in
  name <> Waxing_Gibbous /\ name <> First_Quarter /\ name <> Last_Quarter
  /\ (name = Waning_Gibbous <-> 50 <= illumination < 98)
  /\ (name = Waning_Crescent <-> 2 <= illumination < 50)
  /\ (name = Waxing_Crescent <-> 0 < illumination < 2)
  /\ (name = New_Moon <-> illumination <= 0).
Proof.
  cbv zeta. unfold Moon1.calculate_moon_phase, Moon1.geb, Moon1.leb.
  assert (L : forall a b, Qle_bool a b = false -> b < a).
  { intros a b E. apply Qnot_le_lt. intro H.
    apply Qle_bool_iff in H. congruence. }
  destruct (Qle_bool 98 illumination) eqn:E1;
    [apply Qle_bool_iff in E1; table | apply L in E1].
  destruct (Qle_bool 50 illumination) eqn:E2;
    [apply Qle_bool_iff in E2; table | apply L in E2].
  destruct (Qle_bool 2 illumination) eqn:E3;
    [apply Qle_bool_iff in E3; table | apply L in E3].
  destruct (Qle_bool illumination 0) eqn:E4;
    [apply Qle_bool_iff in E4; table | apply L in E4].
  assert (E5 : Qle_bool illumination 50 = true) by (apply Qle_bool_iff; lra).
  rewrite E5. table.
Qed.

(** X11.  The phase text of [telescope_7] for ephem's phase percentage,
    which lies in [[0, 100]]: "Last Quarter" and "Waning Crescent" are
    never shown, "Waning Gibbous" is shown at exactly 100 percent and
    nowhere else, and "Full Moon" from 90 to below 100. *)
Theorem X11_phase_text_range (phase : Q) :
  0 <= phase <= 100 ->
  let name := Moon7.phase_text_of phase in
  name <> Last_Quarter /\ name <> Waning_Crescent
  /\ (name = Waning_Gibbous <-> phase == 100)
  /\ (name = Full_Moon <-> 90 <= phase < 100).
Proof.
  intros [H0 H100]. cbv zeta. unfold Moon7.phase_text_of.
  destruct (py_ltb_reflect phase 10); [table|].
  destruct (py_ltb_reflect phase 40); [table|].
  destruct (py_ltb_reflect phase 60); [table|].
  destruct (py_ltb_reflect phase 90); [table|].
  destruct (py_ltb_reflect phase 100); [table|].
  destruct (py_ltb_reflect phase 140); [table|].
  exfalso. lra.
Qed.

Lemma X11_phase_text_range_witness :
  Moon7.phase_text_of 100 = Waning_Gibbous <-> 100 == 100.
Proof.
  refine (proj1 (proj2 (proj2 (X11_phase_text_range 100 _)))).
  split; vm_compute; discriminate.
Defined.

(** X12.  [get_moon_phase] of [telescope_8] answers the row of
    [MOON_PHASES] whose value is nearest to the phase taken modulo 1,
    never more than 0.125 away.  The table is not closed into a circle:
    a phase above 0.9375 is named "Waning Crescent", although it is
    nearer to the next new moon. *)
Theorem X12_get_moon_phase_nearest (phase : Q) :
  let p := Py.mod_ phase 1 in
  let r := Moon8.get_moon_phase phase in
  In r Moon8.MOON_PHASES
  /\ Forall (fun x => Qabs (snd r - p) <= Qabs (snd x - p)) Moon8.MOON_PHASES
  /\ Qabs (snd r - p) <= 0.125
  /\ (p <= 0.9375 \/ r = (Waning_Crescent, 0.875)).
Proof.
  intros p r.
  destruct (get_moon_phase_nearest phase) as [M F]. cbv zeta in M, F.
  fold r in M, F. fold p in F.
  assert (R : 0 <= p < 1) by (apply py_mod_range; lra).
  split; [exact M|]. split; [apply Forall_forall; exact F|]. split.
  - destruct (Qlt_le_dec p 0.125).
    { eapply Qle_trans; [apply (F (New_Moon, 0)); simpl; auto|].
      apply Qabs_Qle_condition. simpl. lra. }
    destruct (Qlt_le_dec p 0.25).
    { eapply Qle_trans; [apply (F (Waxing_Crescent, 0.125)); simpl; auto|].
      apply Qabs_Qle_condition. simpl. lra. }
    destruct (Qlt_le_dec p 0.375).
    { eapply Qle_trans; [apply (F (First_Quarter, 0.25)); simpl; auto|].
      apply Qabs_Qle_condition. simpl. lra. }
    destruct (Qlt_le_dec p 0.5).
    { eapply Qle_trans; [apply (F (Waxing_Gibbous, 0.375)); simpl; auto|].
      apply Qabs_Qle_condition. simpl. lra. }
    destruct (Qlt_le_dec p 0.625).
    { eapply Qle_trans; [apply (F (Full_Moon, 0.5)); simpl; auto 10|].
      apply Qabs_Qle_condition. simpl. lra. }
    destruct (Qlt_le_dec p 0.75).
    { eapply Qle_trans; [apply (F (Waning_Gibbous, 0.625)); simpl; auto 10|].
      apply Qabs_Qle_condition. simpl. lra. }
    destruct (Qlt_le_dec p 0.875).
    { eapply Qle_trans; [apply (F (Last_Quarter, 0.75)); simpl; auto 10|].
      apply Qabs_Qle_condition. simpl. lra. }
    eapply Qle_trans; [apply (F (Waning_Crescent, 0.875)); simpl; auto 10|].
    apply Qabs_Qle_condition. simpl. lra.
  - destruct (Qlt_le_dec 0.9375 p) as [H | H]; [right | now left].
    assert (K : Qabs (snd r - p) <= Qabs (0.875 - p)).
    { apply (F (Waning_Crescent, 0.875)). simpl. auto 10. }
    assert (K' : Qabs (0.875 - p) < 0.125).
    { apply Qabs_Qlt_condition. lra. }
    assert (B : Qabs (snd r - p) < 0.125) by lra.
    apply (proj1 (Qabs_Qlt_condition _ _)) in B.
    simpl in M.
    destruct M as [E | [E | [E | [E | [E | [E | [E | [E | []]]]]]]]];
      rewrite <- E in B |- *; simpl in B; try reflexivity; exfalso; lra.
Qed.

(** X13.  The Moon data of [telescope_8] for a Sun-Moon separation, which
    lies in [[0, 180]] degrees: the phase fraction is the separation
    over 360 and never exceeds one half, so the name is never a waning
    one nor "Last Quarter"; with a cosine in [[-1, 1]] the illumination
    lies in [[0, 100]]. *)
Theorem X13_moon_data_range (cosd : Q -> Q) (alt az sep : Q)
    (th : Moon8.MoonCalculationThread) :
  0 <= sep <= 180 ->
  -1 <= cosd sep <= 1 ->
  let d := fst (Moon8.calculate_moon_position cosd (Moon8.astro alt az sep) th) in
  Moon8.phase d == sep / 360
  /\ 0 <= Moon8.phase d <= 0.5
  /\ is_waning (Moon8.phase_name d) = false
  /\ Moon8.phase_name d <> Last_Quarter
  /\ 0 <= Moon8.illumination d <= 100.
Proof.
  intros [S0 S180] [C1 C2]. cbv zeta.
  unfold Moon8.calculate_moon_position. cbv zeta.
  assert (E : Qle_bool sep 180 = true) by now apply Qle_bool_iff.
  rewrite E.
  cbn [fst Moon8.phase Moon8.phase_name Moon8.illumination].
  assert (P : 0 <= sep / 360 <= 0.5).
  { split; [apply Qle_shift_div_l | apply Qle_shift_div_r]; lra. }
  split; [reflexivity|]. split; [exact P|].
  assert (Names : is_waning (fst (Moon8.get_moon_phase (sep / 360))) = false
                  /\ fst (Moon8.get_moon_phase (sep / 360)) <> Last_Quarter).
  { destruct (get_moon_phase_nearest (sep / 360)) as [M F]. cbv zeta in M, F.
    pose proof (F (Full_Moon, 0.5)) as K.
    rewrite (py_mod_small (sep / 360) 1) in K by lra.
    cbn [snd] in K.
    rewrite (Qabs_pos (0.5 - sep / 360)) in K by lra.
    assert (In (Full_Moon, 0.5) Moon8.MOON_PHASES) as Mem by (simpl; auto 10).
    specialize (K Mem). apply Qabs_Qle_condition in K.
    simpl in M.
    destruct M as [E' | [E' | [E' | [E' | [E' | [E' | [E' | [E' | []]]]]]]]];
      rewrite <- E' in K |- *; cbn [fst snd] in K |- *;
      first [ split; [reflexivity | discriminate] | exfalso; lra ]. }
  destruct Names as [N1 N2]. split; [exact N1|]. split; [exact N2|].
  assert (I : (1 + cosd sep) / 2 * 100 == 50 + 50 * cosd sep) by field.
  rewrite I. lra.
Qed.

Lemma X13_moon_data_range_witness :
  is_waning
    (Moon8.phase_name
       (fst (Moon8.calculate_moon_position (fun _ => 0) (Moon8.astro 10 20 170)
               (Moon8.init 40.7128 (-74.006)))))
  = false.
Proof.
  refine (proj1 (proj2 (proj2
            (X13_moon_data_range (fun _ => 0) 10 20 170
               (Moon8.init 40.7128 (-74.006)) _ _)))).
  - split; vm_compute; discriminate.
  - split; vm_compute; discriminate.
Defined.

(** ** The Moon widget of [telescope_8] *)

Section MoonWidget.

Variable cosd : Q -> Q.



End MoonWidget.




(** ** Recording during tracking, [telescope_7/main.py] *)

Section AutoRecord.

Lemma replay_app (t1 t2 : list Effect) (c : Camera7.Camera) :
  Camera7.replay (t1 ++ t2) c = Camera7.replay t2 (Camera7.replay t1 c).
Proof. unfold Camera7.replay. apply fold_left_app. Qed.

Lemma handler_off_recording (target : string) (c : Camera7.Camera) :
  Camera7.recording (fst (Camera7._handle_tracking_auto_record false target c))
  = false.
Proof.
  unfold Camera7._handle_tracking_auto_record.
  destruct c as [r [|] a]; reflexivity.
Qed.

End AutoRecord.

(** X16.  The auto-record handler of [telescope_7]: switching it on
    leaves the camera running and recording whatever its state was, and
    marks the camera active exactly if it had to start it; switching it
    on again changes and reports nothing; switching it off stops the
    recording and leaves the camera running, and a second switching off
    changes and reports nothing. *)
Theorem X16_auto_record (c : Camera7.Camera) (target other : string) :
  let c1 := fst (Camera7._handle_tracking_auto_record true target c) in
  let c2 := fst (Camera7._handle_tracking_auto_record false other c1) in
  Camera7.running c1 = true
  /\ Camera7.recording c1 = true
  /\ Camera7.camera_active c1 = (Camera7.camera_active c || negb (Camera7.running c))
  /\ Camera7._handle_tracking_auto_record true other c1 = (c1, [])
  /\ Camera7.running c2 = true
  /\ Camera7.recording c2 = false
  /\ Camera7._handle_tracking_auto_record false target c2 = (c2, []).
Proof.
  destruct c as [[|] [|] [|]]; cbv zeta; repeat split.
Qed.

(** X17.  The Sun and the Moon tracker of [telescope_7] share the one
    recording: while the Sun is tracked, switching the Moon auto-track
    off stops the recording, whatever the camera did before, and the
    Sun is still tracked. *)
Theorem X17_moon_off_stops_recording (e : Ephem) (g : Main7.GUI)
    (c : Camera7.Camera) :
  Main7.sun_tracking g = true ->
  let g' := Main7.exec e (Main7.MoonAutoTrackChanged false) g in
  Main7.sun_tracking g' = true
  /\ Camera7.recording (Camera7.replay (Main7.trace g') c) = false
  /\ Camera7.replay (Main7.trace g') c
     = fst (Camera7._handle_tracking_auto_record false "Moon"
              (Camera7.replay (Main7.trace g) c)).
Proof.
  intro H. cbv zeta. split; [exact H|].
  assert (E : Camera7.replay
                (Main7.trace (Main7.exec e (Main7.MoonAutoTrackChanged false) g)) c
              = fst (Camera7._handle_tracking_auto_record false "Moon"
                       (Camera7.replay (Main7.trace g) c))).
  { cbn [Main7.exec Main7.state_of].
    unfold Main7.toggle_moon_auto_track. cbv zeta.
    cbn [is_Checked Main7._on_moon_tracking_toggled Main7.emit Main7.trace
         Main7.with_moon_thread].
    rewrite !replay_app. reflexivity. }
  split; [|exact E].
  rewrite E. apply handler_off_recording.
Qed.

Lemma X17_moon_off_stops_recording_witness :
  let g := Main7.run_ops sample_ephem
             [Main7.FilterChanged true; Main7.AutoTrackChanged true;
              Main7.MoonAutoTrackChanged true]
             (Main7.init 40.7128 (-74.006)) in
  Camera7.recording (Camera7.replay (Main7.trace g) Camera7.init) = true
  /\ Camera7.recording
       (Camera7.replay
          (Main7.trace (Main7.exec sample_ephem (Main7.MoonAutoTrackChanged false) g))
          Camera7.init)
     = false.
Proof.
  cbv zeta. split; [reflexivity|].
  refine (proj1 (proj2
            (X17_moon_off_stops_recording sample_ephem _ Camera7.init _))).
  reflexivity.
Defined.

(** ** A failing ephemeris call during Moon tracking *)

(** X18.  In [telescope_7], when the ephemeris call raises while the
    Moon is tracked, the iteration shows the error dialog and then
    slews all the same: both axis targets become 0, the two sliders are
    set to 0 and the slew is logged as a Moon slew to (0, 0). *)
Theorem X18_failed_tracking_slews_to_zero (e : Ephem) (now : Q) (g : Main7.GUI)
    (msg : string) :
  Moon7.running (Main7.moon_thread g) = true ->
  Moon7.auto_track (Main7.moon_thread g) = true ->
  moon_at e (Moon7.lat (Main7.moon_thread g)) (Moon7.lon (Main7.moon_thread g)) now
  = raised msg ->
  let g' := Main7.moon_run_iteration e now g in
  Altitude7.target_alt (Main7.altitude g') == 0
  /\ Azimuth7.target_az (Main7.azimuth g') == 0
  /\ Main7.trace g'
     = Main7.trace g ++
       [ critical "Moon Tracking Error"
           ("Moon Calculation Error: " ++ substring 0 30 msg ++ "...");
         labels_set 0 0;
         slider_set Alt 0; slider_set Az 0;
         db_log (Py.max 0 (Py.min 90 0)) (Py.mod_ 0 360) "Moon" "goto_moon";
         status_bar "Slewing to Moon";
         ai_context (Altitude7.current_alt (Main7.altitude g))
                    (Azimuth7.current_az (Main7.azimuth g)) ].
Proof.
  intros R A M. cbv zeta.
  unfold Main7.moon_run_iteration, Moon7.run_iteration,
         Moon7.calculate_moon_position.
  rewrite R, A, M. cbn [negb app Main7.deliver_moon fold_left].
  unfold Main7.update_moon_position, Main7._slew_to_moon_position,
         Main7.show_moon_error.
  destruct (slew_to_targets "Moon" "goto_moon" "Slewing to Moon" 0 0
              (Main7.emit [labels_set 0 0]
                 (Main7.emit
                    [critical "Moon Tracking Error"
                       ("Moon Calculation Error: " ++ substring 0 30 msg ++ "...")]
                    g))) as [T1 T2].
  split; [rewrite T1; reflexivity|].
  split; [rewrite T2; reflexivity|].
  rewrite slew_to_trace. cbn [Main7.trace Main7.emit Main7.altitude Main7.azimuth].
  rewrite <- !app_assoc. reflexivity.
Qed.

Lemma X18_failed_tracking_slews_to_zero_witness :
  let g := Main7.run_ops sample_ephem
             [Main7.MoonAutoTrackChanged true; Main7.SlewToMoonClicked 1]
             (Main7.init 40.7128 (-74.006)) in
  Altitude7.target_alt
    (Main7.altitude (Main7.moon_run_iteration sample_ephem 2 g)) == 0.
Proof.
  cbv zeta.
  refine (proj1 (X18_failed_tracking_slews_to_zero sample_ephem 2 _
                   "math domain error" _ _ _)); reflexivity.
Defined.

(** ** Slider values *)

Section Sliders.

Variable e : Ephem.











End Sliders.

